(** * custom-discord.py: the Wazuh to Discord alert forwarder

    A shallow embedding of [src/custom-discord.py] and the properties of its
    message builder ([generate_msg]), its two loaders ([get_json_alert],
    [get_json_options]) and the pipeline that drives them ([process_args],
    [main]).

    Conventions of the embedding.
    - Python objects that the script handles are values of [value]; a [dict]
      is an association list in insertion order, which is the order
      [json.dumps] and [repr] print it in.
    - A Python [str] is a [string] whose characters are the code points
      0..255.  JSON numbers are the integers; floating point numbers are
      not represented.
    - A statement that can raise returns [res]; code that also reads or
      writes the process state (the [debug_enabled] global, the files, the
      log, the network) runs in the monad [M] over [world].
    - Writing to the log file is taken to succeed.
    - The properties are those of the pipeline entered through [main].
      The statements at module level (lines 46 to 81) are modelled apart,
      as [module_level]. *)

From Stdlib Require Import ZArith Ascii String DecimalString Lia.
From stdpp Require Import base strings list gmap.

Local Open Scope Z_scope.
Set Warnings "-register-all".

(** ** Python values *)

Inductive value : Type :=
  | VNone
  | VBool (b : bool)
  | VInt (z : Z)
  | VStr (s : string)
  | VList (l : list value)
  | VTuple (l : list value)
  | VDict (d : list (string * value)).

(** The exceptions the script can meet.  [BareException] is the
    [raise Exception] of [process_args]. *)
Inductive exn : Type :=
  | KeyError (key : string)
  | TypeError
  | AttributeError
  | IndexError
  | NameError (name : string)
  | FileNotFoundError (path : string)
  | OSError (why : string)
  | JSONDecodeError (why : string)
  | RequestException (why : string)
  | BareException.

Inductive res (A : Type) : Type :=
  | Ok (a : A)
  | Err (e : exn).
Arguments Ok {A} a.
Arguments Err {A} e.

Definition res_bind {A B} (r : res A) (k : A -> res B) : res B :=
  match r with
  | Ok a => k a
  | Err e => Err e
  end.

Declare Scope res_scope.
Delimit Scope res_scope with res.
Notation "x <- r ; k" := (res_bind r (fun x => k))
  (at level 100, r at next level, right associativity) : res_scope.

(** ** Strings: [str()], [repr()], [format] *)

Module PyStr.

Definition squote : ascii := "039"%char.
Definition dquote : ascii := "034"%char.
Definition backslash : ascii := "092"%char.

Definition char (c : ascii) : string := String c EmptyString.

(** [str(n)] of an [int]. *)
Definition of_int (z : Z) : string := NilEmpty.string_of_int (Z.to_int z).

Definition hex_digit (n : N) : ascii :=
  if (n <? 10)%N then ascii_of_N (48 + n) else ascii_of_N (87 + n).

(** Two lower-case hexadecimal digits of a code point below 256. *)
Definition hex2 (n : N) : string :=
  String (hex_digit (n / 16)) (String (hex_digit (n mod 16)) EmptyString).

Fixpoint has_char (c : ascii) (s : string) : bool :=
  match s with
  | EmptyString => false
  | String x s' => Ascii.eqb x c || has_char c s'
  end.

(** [str.isprintable] on the code points 128..255: the C1 controls, the
    no-break space and the soft hyphen are not. *)
Definition high_printable (n : N) : bool :=
  negb ((n <=? 160)%N || (n =? 173)%N).

(** One character of [repr(s)], [q] being the quote chosen. *)
Definition repr_char (q c : ascii) : string :=
  let n := N_of_ascii c in
  if Ascii.eqb c q || Ascii.eqb c backslash then String backslash (char c)
  else if (n =? 9)%N then String backslash "t"
  else if (n =? 10)%N then String backslash "n"
  else if (n =? 13)%N then String backslash "r"
  else if (n <? 32)%N || (n =? 127)%N then String backslash ("x" +:+ hex2 n)
  else if (n <? 127)%N then char c
  else if high_printable n then char c
  else String backslash ("x" +:+ hex2 n).

Fixpoint repr_chars (q : ascii) (s : string) : string :=
  match s with
  | EmptyString => EmptyString
  | String c s' => repr_char q c +:+ repr_chars q s'
  end.

(** [repr(s)] of a [str]: double quotes only when the text has a single
    quote and no double quote. *)
Definition repr (s : string) : string :=
  let q := if has_char squote s && negb (has_char dquote s)
           then dquote else squote in
  String q (repr_chars q s +:+ char q).

(** One character of [json.dumps(s)] with [ensure_ascii], the default. *)
Definition json_char (c : ascii) : string :=
  let n := N_of_ascii c in
  if Ascii.eqb c dquote || Ascii.eqb c backslash then String backslash (char c)
  else if (n =? 8)%N then String backslash "b"
  else if (n =? 12)%N then String backslash "f"
  else if (n =? 10)%N then String backslash "n"
  else if (n =? 13)%N then String backslash "r"
  else if (n =? 9)%N then String backslash "t"
  else if (32 <=? n)%N && (n <=? 126)%N then char c
  else String backslash ("u00" +:+ hex2 n).

Fixpoint json_chars (s : string) : string :=
  match s with
  | EmptyString => EmptyString
  | String c s' => json_char c +:+ json_chars s'
  end.

Definition json (s : string) : string :=
  String dquote (json_chars s +:+ char dquote).

(** [needle in hay] on two strings. *)
Fixpoint contains (needle hay : string) : bool :=
  String.prefix needle hay ||
  match hay with
  | EmptyString => false
  | String _ hay' => contains needle hay'
  end.

(** [s[-n:]]: the last [n] characters, all of [s] when it is shorter. *)
Definition last_chars (n : nat) (s : string) : string :=
  String.substring (String.length s - n) n s.

End PyStr.

(** [repr(v)]. *)
Fixpoint py_repr (v : value) : string :=
  match v with
  | VNone => "None"
  | VBool b => if b then "True" else "False"
  | VInt z => PyStr.of_int z
  | VStr s => PyStr.repr s
  | VList l => "[" +:+ String.concat ", " (map py_repr l) +:+ "]"
  | VTuple l =>
      match l with
      | [x] => "(" +:+ py_repr x +:+ ",)"
      | _ => "(" +:+ String.concat ", " (map py_repr l) +:+ ")"
      end
  | VDict d =>
      "{" +:+ String.concat ", "
                (map (fun kv => PyStr.repr (fst kv) +:+ ": " +:+ py_repr (snd kv)) d)
          +:+ "}"
  end.

(** [str(v)], which is also [format(v, '')]: what an f-string field and a
    [{0}] of [str.format] insert. *)
Definition py_str (v : value) : string :=
  match v with
  | VStr s => s
  | _ => py_repr v
  end.

(** [json.dumps(v)] with the default separators. *)
Fixpoint json_dumps (v : value) : string :=
  match v with
  | VNone => "null"
  | VBool b => if b then "true" else "false"
  | VInt z => PyStr.of_int z
  | VStr s => PyStr.json s
  | VList l | VTuple l => "[" +:+ String.concat ", " (map json_dumps l) +:+ "]"
  | VDict d =>
      "{" +:+ String.concat ", "
                (map (fun kv => PyStr.json (fst kv) +:+ ": " +:+ json_dumps (snd kv)) d)
          +:+ "}"
  end.

(** ** Subscripts, membership, comparison *)

Fixpoint dict_lookup (key : string) (d : list (string * value)) : option value :=
  match d with
  | [] => None
  | (k, v) :: d' => if String.eqb k key then Some v else dict_lookup key d'
  end.

(** [d[key] = v] on a dict: an existing key keeps its place. *)
Fixpoint dict_set (d : list (string * value)) (key : string) (v : value)
  : list (string * value) :=
  match d with
  | [] => [(key, v)]
  | (k, x) :: d' =>
      if String.eqb k key then (k, v) :: d' else (k, x) :: dict_set d' key v
  end.

(** [v[key]] with a string key: only a dict accepts it. *)
Definition getitem (v : value) (key : string) : res value :=
  match v with
  | VDict d =>
      match dict_lookup key d with
      | Some x => Ok x
      | None => Err (KeyError key)
      end
  | _ => Err TypeError
  end.

(** [key in v] with a string key. *)
Definition py_in (key : string) (v : value) : res bool :=
  match v with
  | VDict d => Ok (existsb (fun kv => String.eqb (fst kv) key) d)
  | VList l | VTuple l =>
      Ok (existsb (fun x => match x with
                            | VStr s => String.eqb s key
                            | _ => false
                            end) l)
  | VStr s => Ok (PyStr.contains key s)
  | VNone | VBool _ | VInt _ => Err TypeError
  end.

(** [v.get(key)]. *)
Definition py_get (v : value) (key : string) : res value :=
  match v with
  | VDict d => Ok (default VNone (dict_lookup key d))
  | _ => Err AttributeError
  end.

(** The integer a value compares as against an [int]; a [bool] is an
    [int], nothing else of JSON is ordered with one. *)
Definition as_int (v : value) : option Z :=
  match v with
  | VInt z => Some z
  | VBool b => Some (if b then 1 else 0)
  | _ => None
  end.

Definition py_cmp (op : Z -> Z -> bool) (v : value) (n : Z) : res bool :=
  match as_int v with
  | Some z => Ok (op z n)
  | None => Err TypeError
  end.

(** ** The message builder *)

Local Open Scope res_scope.

Definition GREEN : string := "5763719".
Definition YELLOW : string := "16705372".
Definition RED : string := "15548997".

(** Lines 195 to 203: the [if]/[elif]/[else] that binds [color]. *)
Definition color (level : value) : res string :=
  lt5 <- py_cmp Z.ltb level 5;
  if lt5 : bool then Ok GREEN
  else
    ge5 <- py_cmp Z.geb level 5;
    mid <- (if ge5 : bool then py_cmp Z.leb level 7 else Ok false);
    if mid : bool then Ok YELLOW else Ok RED.

(** [msg['fields'].append(x)]: the list held under ['fields'] grows in
    place. *)
Definition fields_append (msg : list (string * value)) (x : value)
  : res (list (string * value)) :=
  f <- getitem (VDict msg) "fields";
  match f with
  | VList l => Ok (dict_set msg "fields" (VList (l ++ [x])))
  | _ => Err AttributeError
  end.

Definition field (title : string) (v : value) : value :=
  VDict [("title", VStr title); ("value", v)].

(** Lines 192 to 248 of [generate_msg]: the dict [msg] as it stands when
    [json.dumps] is called. *)
Definition build_msg (alert options : value) : res (list (string * value)) :=
  rule <- getitem alert "rule";
  level <- getitem rule "level";
  color <- color level;
  let msg := [] in
  let msg := dict_set msg "color" (VStr color) in
  rule <- getitem alert "rule";
  id <- getitem rule "id";
  let msg := dict_set msg "title"
               (VTuple [VStr ("Wazuh Alert - Rule " +:+ py_str id)]) in
  rule <- getitem alert "rule";
  has_description <- py_in "description" rule;
  description <- (if has_description : bool
                  then rule <- getitem alert "rule"; getitem rule "description"
                  else Ok (VStr "N/A"));
  let msg := dict_set msg "description" description in
  full_log <- py_get alert "full_log";
  let msg := dict_set msg "text" full_log in
  let msg := dict_set msg "fields" (VList []) in
  has_agent <- py_in "agent" alert;
  msg <- (if has_agent : bool
          then
            agent <- getitem alert "agent";
            agent_id <- getitem agent "id";
            agent <- getitem alert "agent";
            agent_name <- getitem agent "name";
            fields_append msg
              (field "Agent"
                 (VStr ("(" +:+ py_str agent_id +:+ ") - " +:+ py_str agent_name)))
          else Ok msg);
  has_agentless <- py_in "agentless" alert;
  msg <- (if has_agentless : bool
          then
            agentless <- getitem alert "agentless";
            host <- getitem agentless "host";
            fields_append msg (field "Agentless Host" host)
          else Ok msg);
  location <- getitem alert "location";
  msg <- fields_append msg (field "Location" location);
  rule <- getitem alert "rule";
  id <- getitem rule "id";
  msg <- fields_append msg
           (field "Rule ID"
              (VStr (py_str id +:+ " _(Level " +:+ py_str level +:+ ")_")));
  ts <- getitem alert "id";
  let msg := dict_set msg "ts" ts in
  Ok msg.

(** [generate_msg(alert, options)]. *)
Definition generate_msg (alert options : value) : res string :=
  msg <- build_msg alert options;
  Ok (json_dumps (VDict msg)).

Local Close Scope res_scope.

(** ** The process state *)

(** What opening and reading a path gives, when the file is there. *)
Inductive file : Type :=
  | Holds (v : value)            (* valid JSON, parsed *)
  | Malformed (why : string)     (* [json.load] raises [JSONDecodeError] *)
  | Unreadable (why : string).   (* [open] or [read] raises another error *)

(** A line handed to [debug]: a text, or [str(e)] of an exception, whose
    wording is the interpreter's. *)
Inductive line : Type :=
  | Text (s : string)
  | StrOfExn (e : exn).

(** What [requests.post] gives: a response, whose [res.json] renders as
    [shown], or an exception of the transport. *)
Inductive response : Type :=
  | Response (shown : string)
  | TransportError (why : string).

Record world : Type := World {
  debug_enabled : bool;
  files : gmap string file;
  net : string -> string -> response;  (* by url and body *)
  log : list line;                (* what was appended to [LOG_FILE] *)
  stdout : list line;
  posts : list (string * string)  (* every call of [requests.post] *)
}.

Definition set_debug_enabled (b : bool) (w : world) : world :=
  World b (files w) (net w) (log w) (stdout w) (posts w).
Definition log_write (l : line) (w : world) : world :=
  World (debug_enabled w) (files w) (net w) (log w ++ [l]) (stdout w) (posts w).
Definition print (l : line) (w : world) : world :=
  World (debug_enabled w) (files w) (net w) (log w) (stdout w ++ [l]) (posts w).
Definition record_post (url body : string) (w : world) : world :=
  World (debug_enabled w) (files w) (net w) (log w) (stdout w)
        (posts w ++ [(url, body)]).

(** [open(path)]: the empty path names no file. *)
Definition open_file (w : world) (path : string) : option file :=
  if String.eqb path "" then None else files w !! path.

(** How a statement ends: normally, by an exception, or by [sys.exit]. *)
Inductive outcome (A : Type) : Type :=
  | Ret (a : A)
  | Raise (e : exn)
  | Exit (code : Z).
Arguments Ret {A} a.
Arguments Raise {A} e.
Arguments Exit {A} code.

Definition M (A : Type) : Type := world -> outcome A * world.

Definition ret {A} (a : A) : M A := fun w => (Ret a, w).
Definition raise {A} (e : exn) : M A := fun w => (Raise e, w).
Definition sys_exit {A} (code : Z) : M A := fun w => (Exit code, w).
Definition bind {A B} (m : M A) (k : A -> M B) : M B :=
  fun w =>
    match m w with
    | (Ret a, w') => k a w'
    | (Raise e, w') => (Raise e, w')
    | (Exit c, w') => (Exit c, w')
    end.
Definition lift {A} (r : res A) : M A :=
  match r with
  | Ok a => ret a
  | Err e => raise e
  end.
Definition modify (f : world -> world) : M unit := fun w => (Ret tt, f w).

(** [try: body except Exception as e: handler]: [sys.exit] passes through. *)
Definition try_except {A} (body : M A) (handler : exn -> M A) : M A :=
  fun w =>
    match body w with
    | (Raise e, w') => handler e w'
    | r => r
    end.

Declare Scope M_scope.
Delimit Scope M_scope with M.
Notation "x <- m ;; k" := (bind m (fun x => k))
  (at level 100, m at next level, right associativity) : M_scope.
Notation "m ;; k" := (bind m (fun _ => k))
  (at level 100, right associativity) : M_scope.
Local Open Scope M_scope.

(** Exit error codes (lines 18 to 21). *)
Definition ERR_NO_REQUEST_MODULE : Z := 1.
Definition ERR_BAD_ARGUMENTS : Z := 2.
Definition ERR_FILE_NOT_FOUND : Z := 6.
Definition ERR_INVALID_JSON : Z := 7.

Definition ALERT_INDEX : nat := 1.
Definition WEBHOOK_INDEX : nat := 3.

(** [args[i]]. *)
Definition arg (args : list string) (i : nat) : M string :=
  match args !! i with
  | Some a => ret a
  | None => raise IndexError
  end.

(** [debug(msg)]. *)
Definition debug (msg : line) : M unit :=
  fun w =>
    if debug_enabled w
    then (Ret tt, log_write msg (print msg w))
    else (Ret tt, w).

(** [get_json_alert(file_location)]. *)
Definition get_json_alert (file_location : string) : M value :=
  fun w =>
    match open_file w file_location with
    | Some (Holds v) => ret v w
    | None =>
        (debug (Text ("# JSON file for alert " +:+ file_location
                        +:+ " doesn't exist")) ;;
         sys_exit ERR_FILE_NOT_FOUND) w
    | Some (Malformed why) =>
        (debug (Text ("Failed getting JSON alert. Error: " +:+ why)) ;;
         sys_exit ERR_INVALID_JSON) w
    | Some (Unreadable why) => raise (OSError why) w
    end.

(** [get_json_options(file_location)]: the [FileNotFoundError] handler
    falls off the end of the function, which returns [None]. *)
Definition get_json_options (file_location : string) : M value :=
  fun w =>
    match open_file w file_location with
    | Some (Holds v) => ret v w
    | None =>
        (debug (Text ("# JSON file for options " +:+ file_location
                        +:+ " doesn't exist")) ;;
         ret VNone) w
    | Some (Malformed why) | Some (Unreadable why) =>
        (debug (Text ("Failed getting JSON options. Error: " +:+ why)) ;;
         sys_exit ERR_INVALID_JSON) w
    end.

(** [send_msg(msg, url)]. *)
Definition send_msg (msg url : string) : M unit :=
  modify (record_post url msg) ;;
  fun w =>
    match net w url msg with
    | Response shown => debug (Text ("# Response received: " +:+ shown)) w
    | TransportError why => raise (RequestException why) w
    end.

(** The loop of lines 137 to 140 over [args[4:]]: the first argument whose
    last seven characters are [options], else the empty string. *)
Fixpoint find_options (rest : list string) : string :=
  match rest with
  | [] => ""
  | a :: rest' =>
      if String.eqb (PyStr.last_chars 7 a) "options" then a
      else find_options rest'
  end.

(** [process_args(args)]. *)
Definition process_args (args : list string) : M unit :=
  debug (Text "# Running Discord script") ;;
  alert_file_location <- arg args ALERT_INDEX ;;
  webhook <- arg args WEBHOOK_INDEX ;;
  let options_file_location := find_options (drop 4 args) in
  json_options <- get_json_options options_file_location ;;
  debug (Text ("# Opening options file at '" +:+ options_file_location
                 +:+ "' with '" +:+ py_str json_options +:+ "'")) ;;
  json_alert <- get_json_alert alert_file_location ;;
  debug (Text ("# Opening alert file at '" +:+ alert_file_location
                 +:+ "' with '" +:+ py_str json_alert +:+ "'")) ;;
  debug (Text "# Generating message") ;;
  msg <- lift (generate_msg json_alert json_options) ;;
  (if (String.length msg =? 0)%nat
   then debug (Text "# ERROR: Empty message") ;; raise BareException
   else ret tt) ;;
  debug (Text ("# Sending message " +:+ msg +:+ " to Discord server")) ;;
  send_msg msg webhook.

(** [main(args)]. *)
Definition main (args : list string) : M unit :=
  try_except
    (let bad_arguments := negb (4 <=? length args)%nat in
     msg <- (if (4 <=? length args)%nat
             then
               a1 <- arg args 1 ;;
               a2 <- arg args 2 ;;
               a3 <- arg args 3 ;;
               a4 <- (if (4 <? length args)%nat then arg args 4 else ret "") ;;
               a5 <- (if (5 <? length args)%nat then arg args 5 else ret "") ;;
               modify (set_debug_enabled
                         ((4 <? length args)%nat
                          && bool_decide (args !! 4%nat = Some "debug"))) ;;
               ret (a1 +:+ " " +:+ a2 +:+ " " +:+ a3 +:+ " " +:+ a4
                       +:+ " " +:+ a5)
             else ret "# ERROR: Wrong arguments") ;;
     modify (log_write (Text (msg +:+ String "010"%char ""))) ;;
     (if bad_arguments
      then
        debug (Text ("# ERROR: Exiting, bad arguments. Inputted: "
                       +:+ py_repr (VList (map VStr args)))) ;;
        sys_exit ERR_BAD_ARGUMENTS
      else ret tt) ;;
     process_args args)
    (fun e => debug (StrOfExn e) ;; raise e).

(** The statements at module level, lines 46 to 81, which run before
    [main] is called: [color] is bound nowhere at module level, so the dict
    display of line 64 raises [NameError] once its [title] is formatted. *)
Definition module_level (argv : list string) : M unit :=
  alert_file <- arg argv 1 ;;
  _ <- arg argv 2 ;;
  hook_url <- arg argv 3 ;;
  alert_json <- (fun w =>
                   match open_file w alert_file with
                   | Some (Holds v) => ret v w
                   | None => raise (FileNotFoundError alert_file) w
                   | Some (Malformed why) => raise (JSONDecodeError why) w
                   | Some (Unreadable why) => raise (OSError why) w
                   end) ;;
  rule <- lift (getitem alert_json "rule") ;;
  alert_level <- lift (getitem rule "level") ;;
  has_agentless <- lift (py_in "agentless" alert_json) ;;
  agent <- (if has_agentless : bool
            then ret (VStr "agentless")
            else
              agent <- lift (getitem alert_json "agent") ;;
              lift (getitem agent "name")) ;;
  rule <- lift (getitem alert_json "rule") ;;
  id <- lift (getitem rule "id") ;;
  raise (NameError "color").

(** The script run as a program: the module body, then line 327. *)
Definition script (argv : list string) : M unit :=
  module_level argv ;; main argv.

(** The status the interpreter exits with after [main(sys.argv)]: 0 on a
    normal return, the argument of [sys.exit], 1 on an uncaught
    exception. *)
Definition exit_status {A} (o : outcome A) : Z :=
  match o with
  | Ret _ => 0
  | Exit code => code
  | Raise _ => 1
  end.

(** The state a process starts in: line 31. *)
Definition initial_world (fs : gmap string file)
    (network : string -> string -> response) : world :=
  World false fs network [] [] [].

(** * Vocabulary of the statements *)

(** What lines 229 to 236 add to [msg['fields']]. *)
Definition agent_part (alert : value) (fs : list value) : Prop :=
  match getitem alert "agent" with
  | Ok agent =>
      exists i n, getitem agent "id" = Ok i /\ getitem agent "name" = Ok n /\
        fs = [field "Agent" (VStr ("(" +:+ py_str i +:+ ") - " +:+ py_str n))]
  | Err _ => fs = []
  end.

(** What lines 237 to 241 add to [msg['fields']]. *)
Definition agentless_part (alert : value) (fs : list value) : Prop :=
  match getitem alert "agentless" with
  | Ok agentless =>
      exists h, getitem agentless "host" = Ok h /\
        fs = [field "Agentless Host" h]
  | Err _ => fs = []
  end.

(** The dict [msg] between line 228 and line 248. *)
Definition msg_of (c t de tx : value) (fs : list value)
  : list (string * value) :=
  [("color", c); ("title", t); ("description", de); ("text", tx);
   ("fields", VList fs)].

(** The state after [debug(l)]. *)
Definition logged (l : line) (w : world) : world :=
  if debug_enabled w then log_write l (print l w) else w.

(** [w'] differs from [w] at most in the log, the standard output and the
    debug flag: same files, same network, no further POST. *)
Definition quiet (w w' : world) : Prop :=
  files w' = files w /\ net w' = net w /\ posts w' = posts w.

(** [m] ends as [o] from [w], having made no POST. *)
Definition ends {A} (m : M A) (w : world) (o : outcome A) : Prop :=
  exists w', m w = (o, w') /\ quiet w w'.

(** [m] reads the state at most: it leaves it as it is and does not exit. *)
Definition reads_only {A} (m : M A) : Prop :=
  forall w, (exists a, m w = (Ret a, w)) \/ (exists e, m w = (Raise e, w)).

(** The exceptions of subscripts, membership tests and comparisons. *)
Definition lookup_error (e : exn) : Prop :=
  match e with
  | KeyError _ | TypeError | AttributeError => True
  | _ => False
  end.

(** The options [process_args] hands to the builder: what the options file
    holds, [None] when there is no such file. *)
Definition loaded_options (w : world) (args : list string) : value :=
  match open_file w (find_options (drop 4 args)) with
  | Some (Holds v) => v
  | _ => VNone
  end.

(** The outcome of [send_msg]. *)
Definition delivery (r : response) : outcome unit :=
  match r with
  | Response _ => Ret tt
  | TransportError why => Raise (RequestException why)
  end.

(** How a run ended, seen from the state [w] it started in: it made no
    POST, and then did not return normally and did not take the branch of
    line 155; or it posted the built message once, to [args[3]]. *)
Definition run_shape (args : list string) (w : world) (o : outcome unit)
    (w' : world) : Prop :=
  files w' = files w /\ net w' = net w /\
  ((posts w' = posts w /\ o <> Ret tt /\ o <> Raise BareException) \/
   (exists alert_path url alert s,
      args !! 1%nat = Some alert_path /\ args !! 3%nat = Some url /\
      open_file w alert_path = Some (Holds alert) /\
      generate_msg alert (loaded_options w args) = Ok s /\
      posts w' = posts w ++ [(url, s)] /\
      o = delivery (net w url s))).

(** The alert of the specification's worked example: no [agent], no
    [agentless], no [description], no [full_log]. *)
Definition alert_100001 : value :=
  VDict [("rule", VDict [("id", VStr "100001"); ("level", VInt 10)]);
         ("location", VStr "server1");
         ("id", VStr "1690000000.1")].

(** An alert that carries both [agent] and [agentless]. *)
Definition alert_both : value :=
  VDict [("rule", VDict [("id", VStr "100001"); ("level", VInt 3)]);
         ("location", VStr "server1");
         ("id", VStr "1690000000.1");
         ("agent", VDict [("id", VStr "001"); ("name", VStr "web01")]);
         ("agentless", VDict [("host", VStr "h1")])].

(** The strings a value holds, in order, whatever the nesting. *)
Fixpoint strings_of (v : value) : list string :=
  match v with
  | VStr s => [s]
  | VList l | VTuple l => flat_map strings_of l
  | VDict d => flat_map (fun kv => strings_of (snd kv)) d
  | VNone | VBool _ | VInt _ => []
  end.

(** The three tiers of the severity colour. *)
Definition tier (L : Z) : string :=
  if L <? 5 then GREEN else if L <=? 7 then YELLOW else RED.

(** A network that answers every POST. *)
Definition net_ok : string -> string -> response :=
  fun _ _ => Response "<bound method Response.json of <Response [204]>>".

(** A file system with the worked example's alert and an options file that
    is not JSON. *)
Definition sample_files : gmap string file :=
  <["/tmp/bad.options" := Malformed "Expecting value: line 1 column 1 (char 0)"]>
    {["/tmp/alert.json" := Holds alert_100001]}.

Definition sample_world : world := initial_world sample_files net_ok.

Definition HOOK : string := "https://discord.example/api/webhooks/1".

(** A file system whose options file holds a record. *)
Definition files_with_options : gmap string file :=
  <["/tmp/custom.options" := Holds (VDict [("username", VStr "wazuh")])]>
    sample_files.

(** [a] ends with the seven characters [options]. *)
Definition ends_with_options (a : string) : Prop :=
  exists prefix, a = prefix +:+ "options".

(** The line [main] appends to the log at line 106, before its newline. *)
Definition invocation_line (args : list string) : string :=
  if (4 <=? length args)%nat
  then default "" (args !! 1%nat) +:+ " " +:+ default "" (args !! 2%nat)
         +:+ " " +:+ default "" (args !! 3%nat)
         +:+ " " +:+ default "" (args !! 4%nat)
         +:+ " " +:+ default "" (args !! 5%nat)
  else "# ERROR: Wrong arguments".

(** The value of [debug_enabled] once [main] has read its arguments. *)
Definition debug_requested (args : list string) (w : world) : bool :=
  if (4 <=? length args)%nat
  then bool_decide (args !! 4%nat = Some "debug")
  else debug_enabled w.

(** [m] writes the same lines, in the same order, to the standard output
    and to the log, none when the debug flag is off, and leaves the flag
    as it is. *)
Definition traced {A} (m : M A) : Prop :=
  forall w, exists t,
    stdout (snd (m w)) = stdout w ++ t /\
    log (snd (m w)) = log w ++ t /\
    debug_enabled (snd (m w)) = debug_enabled w /\
    (debug_enabled w = false -> t = []).

(** A network on which every POST fails in the transport. *)
Definition net_down : string -> string -> response :=
  fun _ _ => TransportError "Connection refused".

(** A file system whose alert file cannot be read. *)
Definition files_unreadable : gmap string file :=
  {["/tmp/alert.json" := Unreadable "[Errno 13] Permission denied"]}.

(** A state in the middle of a busy life: debugging on, a log, a printed
    line, an earlier POST, one more file. *)
Definition busy_world : world :=
  World true (<["/tmp/other.json" := Holds VNone]> sample_files) net_ok
        [Text "earlier line"] [Text "earlier line"]
        [("https://discord.example/api/webhooks/0", "{}")].

(** The errors the builder can end by: a [TypeError], or the [KeyError] of
    one of the keys it reads without testing for it first. *)
Definition builder_error (e : exn) : Prop :=
  e = TypeError \/
  exists key, e = KeyError key /\
              In key ["rule"; "level"; "id"; "name"; "host"; "location"].

(** The characters [json.dumps] leaves as they are when [ensure_ascii] is
    on: the printable ones of ASCII, from the space to the tilde. *)
Definition printable_ascii (c : ascii) : bool :=
  ((32 <=? N_of_ascii c) && (N_of_ascii c <=? 126))%N.

Fixpoint all_chars (p : ascii -> bool) (s : string) : bool :=
  match s with
  | EmptyString => true
  | String c s' => p c && all_chars p s'
  end.

(** An alert whose log line has a tab, a quote, a backslash, a line feed
    and a letter of Latin-1. *)
Definition alert_latin : value :=
  VDict [("rule", VDict [("id", VInt 5710); ("level", VInt 5);
                         ("description", VStr (String "233"%char "t\233"))]);
         ("location", VStr "C:\Logs");
         ("id", VStr "1690000000.2");
         ("full_log",
          VStr (String "009"%char
                  (String "034"%char
                     (String "092"%char
                        (String "010"%char (String "233"%char ""))))))].

(** A file system whose alert file holds an alert with an agent. *)
Definition files_both : gmap string file :=
  {["/tmp/alert.json" := Holds alert_both]}.

(** * Properties *)

Local Close Scope M_scope.

(** ** Dictionaries *)

Lemma in_dict_lookup (key : string) (d : list (string * value)) :
  existsb (fun kv => String.eqb (fst kv) key) d
  = bool_decide (is_Some (dict_lookup key d)).
Proof.
  induction d as [|[k v] d IH]; cbn [existsb dict_lookup fst].
  - symmetry. apply bool_decide_eq_false_2. intros [x Hx]. discriminate.
  - destruct (String.eqb k key); cbn [orb].
    + symmetry. apply bool_decide_eq_true_2. eauto.
    + exact IH.
Qed.

Lemma py_in_dict_true (key : string) (d : list (string * value)) :
  py_in key (VDict d) = Ok true -> exists v, dict_lookup key d = Some v.
Proof.
  cbn [py_in]. rewrite in_dict_lookup. intros H. injection H as H.
  apply bool_decide_eq_true in H. exact H.
Qed.

Lemma py_in_dict_false (key : string) (d : list (string * value)) :
  py_in key (VDict d) = Ok false -> dict_lookup key d = None.
Proof.
  cbn [py_in]. rewrite in_dict_lookup. intros H. injection H as H.
  apply bool_decide_eq_false in H.
  destruct (dict_lookup key d); [exfalso; eauto | reflexivity].
Qed.

Lemma getitem_Ok (v : value) (key : string) (x : value) :
  getitem v key = Ok x <-> exists d, v = VDict d /\ dict_lookup key d = Some x.
Proof.
  split.
  - destruct v; simpl; try discriminate.
    destruct (dict_lookup key d) eqn:E; [|discriminate].
    intros [= ->]. eauto.
  - intros (d & -> & H). simpl. rewrite H. reflexivity.
Qed.

Ltac res_step H :=
  match type of H with
  | res_bind ?r _ = Ok _ =>
      let E := fresh "E" in
      destruct r eqn:E; [cbn [res_bind] in H | discriminate H]
  | (if ?b then _ else _) = _ =>
      let E := fresh "E" in destruct b eqn:E
  end.

Lemma msg_start (c t de tx : value) :
  dict_set (dict_set (dict_set (dict_set (dict_set [] "color" c) "title" t)
                        "description" de) "text" tx) "fields" (VList [])
  = msg_of c t de tx [].
Proof. reflexivity. Qed.

Lemma fields_append_msg (c t de tx : value) (l : list value) (x : value) :
  fields_append (msg_of c t de tx l) x = Ok (msg_of c t de tx (l ++ [x])).
Proof. reflexivity. Qed.

Lemma msg_finish (c t de tx : value) (l : list value) (ts : value) :
  dict_set (msg_of c t de tx l) "ts" ts = msg_of c t de tx l ++ [("ts", ts)].
Proof. reflexivity. Qed.

Lemma build_msg_Ok (alert options : value) (msg : list (string * value)) :
  build_msg alert options = Ok msg ->
  exists d rd level c idv loc ts agent_f agentless_f,
    alert = VDict d /\ dict_lookup "rule" d = Some (VDict rd) /\
    dict_lookup "level" rd = Some level /\ color level = Ok c /\
    dict_lookup "id" rd = Some idv /\
    dict_lookup "location" d = Some loc /\ dict_lookup "id" d = Some ts /\
    agent_part alert agent_f /\ agentless_part alert agentless_f /\
    msg = [("color", VStr c);
           ("title", VTuple [VStr ("Wazuh Alert - Rule " +:+ py_str idv)]);
           ("description", default (VStr "N/A") (dict_lookup "description" rd));
           ("text", default VNone (dict_lookup "full_log" d));
           ("fields",
            VList (agent_f ++ agentless_f ++
                   [field "Location" loc;
                    field "Rule ID"
                      (VStr (py_str idv +:+ " _(Level " +:+ py_str level +:+ ")_"))]));
           ("ts", ts)].
Proof.
  intros H. unfold build_msg in H.
  repeat res_step H.
  apply getitem_Ok in E as (d & -> & Hrule).
  apply getitem_Ok in E0 as (rd & [= ->] & Hlevel).
  apply getitem_Ok in E2 as (rd' & [= <-] & Hid).
  assert (a4 = default (VStr "N/A") (dict_lookup "description" rd)) as ->.
  { destruct a3.
    - apply py_in_dict_true in E3 as [v Hv]. cbn [getitem] in E4.
      rewrite Hv in E4 |- *. injection E4 as <-. reflexivity.
    - apply py_in_dict_false in E3. rewrite E3. injection E4 as <-.
      reflexivity. }
  cbn [py_get] in E5. injection E5 as <-.
  rewrite msg_start in E7.
  match type of E7 with context [msg_of ?c ?t ?de ?tx []] =>
    assert (exists agent_f, agent_part (VDict d) agent_f /\
                            a7 = msg_of c t de tx agent_f)
      as (agent_f & Hagent & ->)
  end.
  { destruct a6.
    - repeat res_step E7. rewrite fields_append_msg in E7. injection E7 as <-.
      eexists; split; [|reflexivity]. unfold agent_part. rewrite E. eauto.
    - injection E7 as <-. exists []. split; [|reflexivity].
      unfold agent_part. apply py_in_dict_false in E6. cbn [getitem].
      rewrite E6. reflexivity. }
  match type of E9 with context [msg_of ?c ?t ?de ?tx agent_f] =>
    assert (exists agentless_f, agentless_part (VDict d) agentless_f /\
                                a9 = msg_of c t de tx (agent_f ++ agentless_f))
      as (agentless_f & Hagentless & ->)
  end.
  { destruct a8.
    - repeat res_step E9. rewrite fields_append_msg in E9. injection E9 as <-.
      eexists; split; [|reflexivity]. unfold agentless_part. rewrite E. eauto.
    - injection E9 as <-. exists []. split; [|rewrite app_nil_r; reflexivity].
      unfold agentless_part. apply py_in_dict_false in E8. cbn [getitem].
      rewrite E8. reflexivity. }
  rewrite fields_append_msg in E11. injection E11 as <-.
  rewrite fields_append_msg in E12. injection E12 as <-.
  rewrite msg_finish in H. injection H as <-.
  apply getitem_Ok in E10 as (d' & [= <-] & Hloc).
  apply getitem_Ok in E13 as (d' & [= <-] & Hts).
  exists d, rd, a0, a1, a2, a10, a13, agent_f, agentless_f.
  repeat (split; [assumption || reflexivity|]).
  unfold msg_of. cbn [app]. rewrite <- !app_assoc. reflexivity.
Qed.

Lemma py_in_dict (key : string) (d : list (string * value)) :
  py_in key (VDict d)
  = Ok (match dict_lookup key d with Some _ => true | None => false end).
Proof.
  cbn [py_in]. rewrite in_dict_lookup. f_equal.
  destruct (dict_lookup key d).
  - apply bool_decide_eq_true_2. eauto.
  - apply bool_decide_eq_false_2. intros [x Hx]. discriminate.
Qed.

(** The builder returns as soon as the subscripts it takes are there and the
    level is a number. *)
Lemma build_msg_returns (d rd : list (string * value)) (level : value)
    (c : string) (idv loc ts options : value) :
  dict_lookup "rule" d = Some (VDict rd) ->
  dict_lookup "level" rd = Some level ->
  color level = Ok c ->
  dict_lookup "id" rd = Some idv ->
  dict_lookup "location" d = Some loc ->
  dict_lookup "id" d = Some ts ->
  (forall agent, dict_lookup "agent" d = Some agent ->
     exists i n, getitem agent "id" = Ok i /\ getitem agent "name" = Ok n) ->
  (forall agentless, dict_lookup "agentless" d = Some agentless ->
     exists h, getitem agentless "host" = Ok h) ->
  exists msg, build_msg (VDict d) options = Ok msg.
Proof.
  intros Hrule Hlevel Hc Hid Hloc Hts Hagent Hagentless.
  unfold build_msg. cbn [getitem]. rewrite Hrule. cbn [res_bind getitem].
  rewrite Hlevel. cbn [res_bind]. rewrite Hc. cbn [res_bind].
  rewrite Hid. cbn [res_bind]. rewrite !py_in_dict. cbn [res_bind py_get].
  rewrite Hloc, Hts.
  assert (exists de, (if match dict_lookup "description" rd with
                         | Some _ => true | None => false end
                      then match dict_lookup "description" rd with
                           | Some x => Ok x
                           | None => Err (KeyError "description")
                           end
                      else Ok (VStr "N/A")) = Ok de) as [de ->].
  { destruct (dict_lookup "description" rd); eauto. }
  cbn [res_bind]. rewrite msg_start.
  destruct (dict_lookup "agent" d) as [agent|] eqn:Ea.
  - destruct (Hagent agent eq_refl) as (i & n & Hi & Hn).
    cbn [res_bind]. rewrite Hi. cbn [res_bind]. rewrite Hn. cbn [res_bind].
    rewrite fields_append_msg. cbn [res_bind].
    destruct (dict_lookup "agentless" d) as [agentless|] eqn:El.
    + destruct (Hagentless agentless eq_refl) as (h & Hh).
      cbn [res_bind]. rewrite Hh. cbn [res_bind].
      rewrite !fields_append_msg. cbn [res_bind].
      rewrite !fields_append_msg. cbn [res_bind]. eauto.
    + cbn [res_bind]. rewrite !fields_append_msg. cbn [res_bind].
      rewrite !fields_append_msg. cbn [res_bind]. eauto.
  - cbn [res_bind].
    destruct (dict_lookup "agentless" d) as [agentless|] eqn:El.
    + destruct (Hagentless agentless eq_refl) as (h & Hh).
      cbn [res_bind]. rewrite Hh. cbn [res_bind].
      rewrite !fields_append_msg. cbn [res_bind].
      rewrite !fields_append_msg. cbn [res_bind]. eauto.
    + cbn [res_bind]. rewrite !fields_append_msg. cbn [res_bind].
      rewrite !fields_append_msg. cbn [res_bind]. eauto.
Qed.

(** ** Strings *)

Lemma json_dumps_dict_length (d : list (string * value)) :
  (0 < String.length (json_dumps (VDict d)))%nat.
Proof.
  cbn [json_dumps String.append String.length]. apply Nat.lt_0_succ.
Qed.

Lemma generate_msg_Ok (alert options : value) (s : string) :
  generate_msg alert options = Ok s <->
  exists msg, build_msg alert options = Ok msg /\ s = json_dumps (VDict msg).
Proof.
  unfold generate_msg. split.
  - destruct (build_msg alert options) as [msg|e]; cbn [res_bind];
      [|discriminate]. intros [= <-]. eauto.
  - intros (msg & -> & ->). reflexivity.
Qed.

Lemma generate_msg_nonempty (alert options : value) (s : string) :
  generate_msg alert options = Ok s -> (0 < String.length s)%nat.
Proof.
  intros H. apply generate_msg_Ok in H as (msg & _ & ->).
  apply json_dumps_dict_length.
Qed.

(** ** The process state under logging *)

Lemma debug_eq (l : line) (w : world) : debug l w = (Ret tt, logged l w).
Proof. unfold debug, logged. destruct (debug_enabled w); reflexivity. Qed.

Lemma bind_debug {A} (l : line) (k : unit -> M A) (w : world) :
  bind (debug l) k w = k tt (logged l w).
Proof. unfold bind. rewrite debug_eq. reflexivity. Qed.

Lemma bind_ret {A B} (a : A) (k : A -> M B) (w : world) :
  bind (ret a) k w = k a w.
Proof. reflexivity. Qed.

Lemma quiet_refl (w : world) : quiet w w.
Proof. repeat split. Qed.

Lemma quiet_trans (w1 w2 w3 : world) : quiet w1 w2 -> quiet w2 w3 -> quiet w1 w3.
Proof.
  intros (F1 & N1 & P1) (F2 & N2 & P2).
  repeat split; congruence.
Qed.

Lemma quiet_logged (l : line) (w : world) : quiet w (logged l w).
Proof. unfold logged. destruct (debug_enabled w); repeat split. Qed.

Lemma quiet_logged_r (l : line) (w w' : world) :
  quiet w w' -> quiet w (logged l w').
Proof. intros H. eapply quiet_trans; [exact H | apply quiet_logged]. Qed.

Lemma quiet_open_file (w w' : world) (path : string) :
  quiet w w' -> open_file w' path = open_file w path.
Proof. intros (F & _). unfold open_file. rewrite F. reflexivity. Qed.

Lemma quiet_net (w w' : world) : quiet w w' -> net w' = net w.
Proof. intros (_ & N & _). exact N. Qed.

Lemma quiet_posts (w w' : world) : quiet w w' -> posts w' = posts w.
Proof. intros (_ & _ & P). exact P. Qed.

Ltac quiet_tac :=
  repeat apply quiet_logged_r; first [assumption | apply quiet_refl].

(** ** The loaders *)

Lemma get_json_options_eq (path : string) (w : world) :
  get_json_options path w =
  match open_file w path with
  | Some (Holds v) => (Ret v, w)
  | None =>
      (Ret VNone,
       logged (Text ("# JSON file for options " +:+ path +:+ " doesn't exist")) w)
  | Some (Malformed why) | Some (Unreadable why) =>
      (Exit ERR_INVALID_JSON,
       logged (Text ("Failed getting JSON options. Error: " +:+ why)) w)
  end.
Proof.
  unfold get_json_options.
  destruct (open_file w path) as [[v|why|why]|];
    try reflexivity; rewrite bind_debug; reflexivity.
Qed.

Lemma get_json_alert_eq (path : string) (w : world) :
  get_json_alert path w =
  match open_file w path with
  | Some (Holds v) => (Ret v, w)
  | None =>
      (Exit ERR_FILE_NOT_FOUND,
       logged (Text ("# JSON file for alert " +:+ path +:+ " doesn't exist")) w)
  | Some (Malformed why) =>
      (Exit ERR_INVALID_JSON,
       logged (Text ("Failed getting JSON alert. Error: " +:+ why)) w)
  | Some (Unreadable why) => (Raise (OSError why), w)
  end.
Proof.
  unfold get_json_alert.
  destruct (open_file w path) as [[v|why|why]|];
    try reflexivity; rewrite bind_debug; reflexivity.
Qed.

(** What [send_msg] does to the state: one POST, then the log. *)
Lemma send_msg_eq (msg url : string) (w : world) :
  exists w',
    send_msg msg url w =
      (match net w url msg with
       | Response _ => Ret tt
       | TransportError why => Raise (RequestException why)
       end, w') /\
    files w' = files w /\ net w' = net w /\
    posts w' = posts w ++ [(url, msg)].
Proof.
  unfold send_msg, bind, modify. cbn [net record_post].
  destruct (net w url msg) as [shown|why].
  - rewrite debug_eq. eexists. split; [reflexivity|].
    destruct (quiet_logged (Text ("# Response received: " +:+ shown))
                (record_post url msg w)) as (F & N & P).
    rewrite F, N, P. repeat split.
  - eexists. split; [reflexivity|]. repeat split.
Qed.

(** ** The pipeline *)

(** Lines 144 to 158, once the options are loaded: [w1] is the state then,
    [w] the state [process_args] started in. *)
Lemma process_args_tail (options : value) (opath alert_path url : string)
    (w w1 : world) :
  quiet w w1 ->
  let rest : M unit :=
    (debug (Text ("# Opening options file at '" +:+ opath
                    +:+ "' with '" +:+ py_str options +:+ "'")) ;;
     json_alert <- get_json_alert alert_path ;;
     debug (Text ("# Opening alert file at '" +:+ alert_path
                    +:+ "' with '" +:+ py_str json_alert +:+ "'")) ;;
     debug (Text "# Generating message") ;;
     msg <- lift (generate_msg json_alert options) ;;
     (if (String.length msg =? 0)%nat
      then debug (Text "# ERROR: Empty message") ;; raise BareException
      else ret tt) ;;
     debug (Text ("# Sending message " +:+ msg +:+ " to Discord server")) ;;
     send_msg msg url)%M in
  match open_file w alert_path with
  | None => exists w', rest w1 = (Exit ERR_FILE_NOT_FOUND, w') /\ quiet w w'
  | Some (Malformed _) =>
      exists w', rest w1 = (Exit ERR_INVALID_JSON, w') /\ quiet w w'
  | Some (Unreadable why) =>
      exists w', rest w1 = (Raise (OSError why), w') /\ quiet w w'
  | Some (Holds alert) =>
      match generate_msg alert options with
      | Err e => exists w', rest w1 = (Raise e, w') /\ quiet w w'
      | Ok s =>
          exists w',
            rest w1 =
              (match net w url s with
               | Response _ => Ret tt
               | TransportError why => Raise (RequestException why)
               end, w') /\
            files w' = files w /\ net w' = net w /\
            posts w' = posts w ++ [(url, s)]
      end
  end.
Proof.
  intros Q1 rest. remember (rest w1) as r eqn:Hr. subst rest.
  rewrite bind_debug in Hr.
  set (w2 := logged _ w1) in Hr. assert (quiet w w2) as Q2 by quiet_tac.
  clearbody w2. clear Q1 w1.
  unfold bind at 1 in Hr. rewrite get_json_alert_eq in Hr.
  rewrite (quiet_open_file w w2) in Hr by exact Q2.
  destruct (open_file w alert_path) as [[alert|why|why]|];
    try (subst r; eexists; split; [reflexivity | quiet_tac]).
  rewrite !bind_debug in Hr.
  set (w3 := logged _ (logged _ w2)) in Hr.
  assert (quiet w w3) as Q3 by quiet_tac. clearbody w3.
  unfold bind at 1 in Hr.
  pose proof (generate_msg_nonempty alert options) as Hlen.
  destruct (generate_msg alert options) as [s|e]; cbn [lift] in Hr;
    [|subst r; eexists; split; [reflexivity | exact Q3]].
  specialize (Hlen s eq_refl). unfold ret at 1 in Hr.
  destruct (Nat.eqb_spec (String.length s) 0) as [E|_]; [lia|].
  rewrite bind_ret, bind_debug in Hr.
  set (w4 := logged _ w3) in Hr.
  assert (quiet w w4) as (F4 & N4 & P4) by quiet_tac. clearbody w4.
  destruct (send_msg_eq s url w4) as (w' & Hs & F & N & P).
  exists w'. rewrite Hr, Hs, N4, F, N, P, F4, P4. repeat split; exact N4.
Qed.

(** How [process_args] ends, by what the files hold: the options file is
    read first, then the alert file; only a built message is posted. *)
Lemma process_args_spec (args : list string) (w : world) :
  match args !! 1%nat, args !! 3%nat with
  | Some alert_path, Some url =>
      match open_file w (find_options (drop 4 args)) with
      | Some (Malformed _) | Some (Unreadable _) =>
          ends (process_args args) w (Exit ERR_INVALID_JSON)
      | opt =>
          let options := match opt with Some (Holds v) => v | _ => VNone end in
          match open_file w alert_path with
          | None => ends (process_args args) w (Exit ERR_FILE_NOT_FOUND)
          | Some (Malformed _) =>
              ends (process_args args) w (Exit ERR_INVALID_JSON)
          | Some (Unreadable why) =>
              ends (process_args args) w (Raise (OSError why))
          | Some (Holds alert) =>
              match generate_msg alert options with
              | Err e => ends (process_args args) w (Raise e)
              | Ok s =>
                  exists w',
                    process_args args w =
                      (match net w url s with
                       | Response _ => Ret tt
                       | TransportError why => Raise (RequestException why)
                       end, w') /\
                    files w' = files w /\ net w' = net w /\
                    posts w' = posts w ++ [(url, s)]
              end
          end
      end
  | _, _ => ends (process_args args) w (Raise IndexError)
  end.
Proof.
  unfold ends. remember (process_args args w) as r eqn:Hr.
  unfold process_args in Hr. rewrite bind_debug in Hr.
  unfold arg, ALERT_INDEX, WEBHOOK_INDEX in Hr.
  set (w0 := logged _ w) in Hr.
  assert (quiet w w0) as Q0 by quiet_tac. clearbody w0.
  destruct (args !! 1%nat) as [alert_path|];
    [|subst r; eexists; split; [reflexivity | exact Q0]].
  rewrite bind_ret in Hr.
  destruct (args !! 3%nat) as [url|];
    [|subst r; eexists; split; [reflexivity | exact Q0]].
  rewrite bind_ret in Hr. cbv zeta in Hr.
  unfold bind at 1 in Hr. rewrite get_json_options_eq in Hr.
  rewrite (quiet_open_file w w0) in Hr by exact Q0.
  destruct (open_file w (find_options (drop 4 args))) as [[v|why|why]|];
    subst r; cbv zeta;
    try (eexists; split; [reflexivity | quiet_tac]).
  - apply (process_args_tail v _ alert_path url w w0 Q0).
  - apply (process_args_tail VNone _ alert_path url w); quiet_tac.
Qed.

Lemma quiet_log_write (l : line) (w : world) : quiet w (log_write l w).
Proof. repeat split. Qed.

Lemma quiet_set_debug_enabled (b : bool) (w : world) :
  quiet w (set_debug_enabled b w).
Proof. repeat split. Qed.

(** How [main] ends: with fewer than four arguments it exits with
    [ERR_BAD_ARGUMENTS]; otherwise it ends as [process_args] does, from a
    state [w0] that differs from [w] in the log and the debug flag. *)
Lemma main_spec (args : list string) (w : world) :
  if (4 <=? length args)%nat
  then exists w0, quiet w w0 /\
         forall o w1, process_args args w0 = (o, w1) ->
           exists w2, main args w = (o, w2) /\ quiet w1 w2
  else ends (main args) w (Exit ERR_BAD_ARGUMENTS).
Proof.
  destruct (4 <=? length args)%nat eqn:Hlen.
  - assert (exists w0, quiet w w0 /\
              main args w =
                try_except (process_args args)
                  (fun e => bind (debug (StrOfExn e)) (fun _ => raise e)) w0)
      as (w0 & Q0 & Hmain).
    { unfold main. rewrite Hlen. cbn [negb].
      destruct args as [|a0 [|a1 [|a2 [|a3 rest]]]]; try discriminate Hlen.
      remember (process_args (a0 :: a1 :: a2 :: a3 :: rest)) as p.
      destruct rest as [|a4 [|a5 rest]];
        (eexists; split; [|unfold try_except, bind; cbn; reflexivity]);
        (eapply quiet_trans;
         [apply quiet_set_debug_enabled | apply quiet_log_write]). }
    exists w0. split; [exact Q0|]. intros o w1 Hp.
    rewrite Hmain. unfold try_except. rewrite Hp.
    destruct o as [[]|e|c].
    + exists w1. split; [reflexivity | apply quiet_refl].
    + rewrite bind_debug. eexists. split; [reflexivity | apply quiet_logged].
    + exists w1. split; [reflexivity | apply quiet_refl].
  - unfold ends, main, try_except. rewrite Hlen. cbn [negb].
    unfold bind at 1. cbn [ret]. unfold bind at 1. cbn [modify].
    unfold bind at 1. rewrite bind_debug. cbn [sys_exit].
    eexists. split; [reflexivity|].
    eapply quiet_trans; [apply quiet_log_write | apply quiet_logged].
Qed.

(** ** What the builder can raise *)

Lemma getitem_Err (v : value) (key : string) (e : exn) :
  getitem v key = Err e -> lookup_error e.
Proof.
  destruct v; cbn; try (intros [= <-]; exact I).
  destruct (dict_lookup key d); [discriminate | intros [= <-]; exact I].
Qed.

Lemma py_in_Err (key : string) (v : value) (e : exn) :
  py_in key v = Err e -> lookup_error e.
Proof. destruct v; cbn; try discriminate; intros [= <-]; exact I. Qed.

Lemma py_get_Err (v : value) (key : string) (e : exn) :
  py_get v key = Err e -> lookup_error e.
Proof. destruct v; cbn; try discriminate; intros [= <-]; exact I. Qed.

Lemma py_cmp_Err (op : Z -> Z -> bool) (v : value) (n : Z) (e : exn) :
  py_cmp op v n = Err e -> lookup_error e.
Proof.
  unfold py_cmp. destruct (as_int v); [discriminate | intros [= <-]; exact I].
Qed.

Lemma res_bind_Err {A B} (P : exn -> Prop) (r : res A) (k : A -> res B) :
  (forall e, r = Err e -> P e) ->
  (forall a e, k a = Err e -> P e) ->
  forall e, res_bind r k = Err e -> P e.
Proof.
  intros Hr Hk e. destruct r as [a|e']; cbn [res_bind].
  - apply Hk.
  - intros [= <-]. apply Hr. reflexivity.
Qed.

Ltac lookup_error_tac :=
  repeat first
    [ apply res_bind_Err; [|intros ?]
    | apply getitem_Err | apply py_in_Err | apply py_get_Err
    | apply py_cmp_Err
    | discriminate
    | match goal with
      | |- forall e, (if ?b then _ else _) = Err e -> _ => destruct b
      | |- forall e, match ?f with VList _ => _ | _ => _ end = Err e -> _ =>
          destruct f; try (intros e [= <-]; exact I)
      | |- forall e, Ok _ = Err e -> _ => intros e; discriminate
      end ].

Lemma color_Err (level : value) (e : exn) :
  color level = Err e -> lookup_error e.
Proof. revert e. unfold color. lookup_error_tac. Qed.

Lemma fields_append_Err (msg : list (string * value)) (x : value) (e : exn) :
  fields_append msg x = Err e -> lookup_error e.
Proof. revert e. unfold fields_append. lookup_error_tac. Qed.

Lemma build_msg_Err (alert options : value) (e : exn) :
  build_msg alert options = Err e -> lookup_error e.
Proof.
  revert e. unfold build_msg.
  repeat first
    [ apply color_Err | apply fields_append_Err
    | apply getitem_Err | apply py_in_Err | apply py_get_Err
    | apply res_bind_Err; [|intros ?]
    | match goal with
      | |- forall e, (if ?b then _ else _) = Err e -> _ => destruct b
      | |- forall e, Ok _ = Err e -> _ => intros e; discriminate
      end ].
Qed.

Lemma generate_msg_Err (alert options : value) (e : exn) :
  generate_msg alert options = Err e -> lookup_error e.
Proof.
  unfold generate_msg. revert e. apply res_bind_Err.
  - apply build_msg_Err.
  - discriminate.
Qed.

(** ** Every run of [main] *)

Lemma run_shape_quiet (args : list string) (w w' : world) (o : outcome unit) :
  quiet w w' -> o <> Ret tt -> o <> Raise BareException ->
  run_shape args w o w'.
Proof.
  intros (F & N & P) H1 H2. split; [exact F|]. split; [exact N|].
  left. auto.
Qed.

Lemma process_args_cases (args : list string) (w : world) :
  exists o w', process_args args w = (o, w') /\ run_shape args w o w'.
Proof.
  destruct (process_args args w) as [o w1] eqn:Hp.
  exists o, w1. split; [reflexivity|].
  pose proof (process_args_spec args w) as S.
  unfold ends in S. rewrite Hp in S.
  assert (forall o' : outcome unit,
            (exists w', (o, w1) = (o', w') /\ quiet w w') ->
            o' <> Ret tt -> o' <> Raise BareException ->
            run_shape args w o w1) as Hleft.
  { intros o' (w' & [= -> ->] & Q1) H1 H2.
    apply run_shape_quiet; assumption. }
  unfold run_shape, loaded_options in *.
  destruct (args !! 1%nat) as [alert_path|];
    [|apply (Hleft _ S); discriminate].
  destruct (args !! 3%nat) as [url|];
    [|apply (Hleft _ S); discriminate].
  destruct (open_file w (find_options (drop 4 args))) as [[v|why|why]|];
    try (apply (Hleft _ S); discriminate);
    cbv zeta in S;
    (destruct (open_file w alert_path) as [[alert|why|why]|] eqn:Ha;
     try (apply (Hleft _ S); discriminate)).
  all: match type of S with
       | context [generate_msg ?a ?opts] =>
           pose proof (generate_msg_Err a opts) as HE;
           destruct (generate_msg a opts) as [s|e] eqn:Hg
       end.
  all: try (apply (Hleft _ S); [discriminate|];
            intros [= ->]; exact (HE _ eq_refl)).
  all: destruct S as (w' & [= -> ->] & F & N & P);
       (split; [exact F|]); (split; [exact N|]);
       right; exists alert_path, url, alert, s;
       repeat split; try reflexivity; assumption.
Qed.

Lemma run_shape_transport (args : list string) (w w0 w1 w2 : world)
    (o : outcome unit) :
  quiet w w0 -> run_shape args w0 o w1 -> quiet w1 w2 ->
  run_shape args w o w2.
Proof.
  intros Q0 (F & N & H) (F2 & N2 & P2).
  pose proof Q0 as (F0 & N0 & P0).
  split; [congruence|]. split; [congruence|].
  destruct H as [(P & H1 & H2) | (alert_path & url & alert & s & H)].
  - left. repeat split; try assumption. congruence.
  - right. exists alert_path, url, alert, s.
    destruct H as (A1 & A3 & Ha & Hg & P & Ho).
    unfold loaded_options in *.
    rewrite !(quiet_open_file w w0) in * by exact Q0.
    rewrite N0 in Ho. repeat split; try assumption. congruence.
Qed.

Lemma main_cases (args : list string) (w : world) :
  exists o w', main args w = (o, w') /\ run_shape args w o w'.
Proof.
  pose proof (main_spec args w) as Hm.
  destruct (4 <=? length args)%nat.
  - destruct Hm as (w0 & Q0 & Hm).
    destruct (process_args_cases args w0) as (o & w1 & Hp & Hs).
    destruct (Hm o w1 Hp) as (w2 & Hmain & Q2).
    exists o, w2. split; [exact Hmain|].
    exact (run_shape_transport args w w0 w1 w2 o Q0 Hs Q2).
  - destruct Hm as (w' & Hmain & Q).
    exists (Exit ERR_BAD_ARGUMENTS), w'. split; [exact Hmain|].
    apply run_shape_quiet; [exact Q | discriminate | discriminate].
Qed.

(** ** The message builder: the claims *)

(** What [generate_msg] returns is [json.dumps] of the dict it built, and
    that dict has the shape [build_msg_Ok] gives. *)
Ltac built Hs msg Hbuilt :=
  apply generate_msg_Ok in Hs as (msg & Hbuilt & ->).

Lemma color_int (L : Z) : color (VInt L) = Ok (tier L).
Proof.
  unfold color, tier, py_cmp. cbn [as_int res_bind].
  destruct (Z.ltb_spec L 5) as [H|H]; [reflexivity|].
  destruct (Z.geb_spec L 5) as [_|H']; [|lia].
  destruct (L <=? 7); reflexivity.
Qed.

(** C1.  The colour of the message is the three-tier function of the
    integer level: below 5 green, from 5 to 7 yellow, above 7 red; levels
    4, 5, 7 and 8 give green, yellow, yellow and red; and the [color]
    entry of the payload of an alert whose [rule.level] is the integer [L]
    is that colour. *)
Theorem severity_color_tiers :
  (forall L : Z,
     (L < 5 -> color (VInt L) = Ok GREEN) /\
     (5 <= L <= 7 -> color (VInt L) = Ok YELLOW) /\
     (7 < L -> color (VInt L) = Ok RED)) /\
  (color (VInt 4) = Ok GREEN /\ color (VInt 5) = Ok YELLOW /\
   color (VInt 7) = Ok YELLOW /\ color (VInt 8) = Ok RED) /\
  (forall (alert options rule : value) (L : Z) (s : string),
     getitem alert "rule" = Ok rule ->
     getitem rule "level" = Ok (VInt L) ->
     generate_msg alert options = Ok s ->
     exists c msg,
       color (VInt L) = Ok c /\
       build_msg alert options = Ok msg /\ s = json_dumps (VDict msg) /\
       dict_lookup "color" msg = Some (VStr c)).
Proof.
  split; [|split].
  - intros L. rewrite color_int. unfold tier. repeat split; intros H.
    + destruct (Z.ltb_spec L 5); [reflexivity | lia].
    + destruct (Z.ltb_spec L 5); [lia|].
      destruct (Z.leb_spec L 7); [reflexivity | lia].
    + destruct (Z.ltb_spec L 5); [lia|].
      destruct (Z.leb_spec L 7); [lia | reflexivity].
  - repeat split.
  - intros alert options rule L s Hrule Hlevel Hs.
    built Hs msg Hbuilt. pose proof Hbuilt as Hb.
    apply build_msg_Ok in Hb
      as (d & rd & level & c & idv & loc & ts & af & lf & -> & Hr & Hl & Hc
          & _ & _ & _ & _ & _ & ->).
    cbn [getitem] in Hrule. rewrite Hr in Hrule. injection Hrule as <-.
    cbn [getitem] in Hlevel. rewrite Hl in Hlevel. injection Hlevel as ->.
    exists c. eexists. split; [exact Hc|]. split; [exact Hbuilt|].
    split; reflexivity.
Qed.

Lemma severity_color_tiers_witness :
  color (VInt 10) = Ok RED /\
  exists msg,
    generate_msg alert_100001 VNone = Ok (json_dumps (VDict msg)) /\
    dict_lookup "color" msg = Some (VStr RED).
Proof.
  destruct severity_color_tiers as (Htier & _ & Hmsg).
  assert (color (VInt 10) = Ok RED) as Hred by (apply (Htier 10); lia).
  split; [exact Hred|].
  destruct (Hmsg alert_100001 VNone
              (VDict [("id", VStr "100001"); ("level", VInt 10)]) 10
              _ eq_refl eq_refl eq_refl) as (c & msg & Hc & _ & Hs & Hl).
  rewrite Hred in Hc. injection Hc as <-.
  exists msg. rewrite <- Hs. split; [reflexivity | exact Hl].
Defined.

(** C2, as the code has it.  The [title] entry of the payload carries one
    string: [Wazuh Alert - Rule ] followed by [str(alert.rule.id)]. *)
Theorem title_text (alert options rule id : value) (s : string) :
  getitem alert "rule" = Ok rule ->
  getitem rule "id" = Ok id ->
  generate_msg alert options = Ok s ->
  exists msg t,
    build_msg alert options = Ok msg /\ s = json_dumps (VDict msg) /\
    dict_lookup "title" msg = Some t /\
    strings_of t = ["Wazuh Alert - Rule " +:+ py_str id].
Proof.
  intros Hrule Hid Hs. built Hs msg Hbuilt. pose proof Hbuilt as Hb.
  apply build_msg_Ok in Hb
    as (d & rd & level & c & idv & loc & ts & af & lf & -> & Hr & _ & _
        & Hi & _ & _ & _ & _ & ->).
  cbn [getitem] in Hrule. rewrite Hr in Hrule. injection Hrule as <-.
  cbn [getitem] in Hid. rewrite Hi in Hid. injection Hid as ->.
  eexists. eexists. split; [exact Hbuilt|]. split; [reflexivity|].
  split; reflexivity.
Qed.

Lemma title_text_witness :
  exists msg t,
    generate_msg alert_100001 VNone = Ok (json_dumps (VDict msg)) /\
    dict_lookup "title" msg = Some t /\
    strings_of t = ["Wazuh Alert - Rule 100001"].
Proof.
  destruct (title_text alert_100001 VNone
              (VDict [("id", VStr "100001"); ("level", VInt 10)])
              (VStr "100001") _ eq_refl eq_refl eq_refl)
    as (msg & t & _ & Hs & Ht & Hstr).
  exists msg, t. rewrite <- Hs. repeat split; assumption.
Defined.

(** C2, as stated, fails on the worked example: the [title] entry is not
    the string [Alert - Rule 100001]; it is a one-element sequence, which
    [json.dumps] writes as an array, and its text starts with [Wazuh]. *)
Lemma title_is_not_the_stated_string :
  exists msg s,
    getitem alert_100001 "rule"
    = Ok (VDict [("id", VStr "100001"); ("level", VInt 10)]) /\
    build_msg alert_100001 VNone = Ok msg /\
    generate_msg alert_100001 VNone = Ok s /\
    dict_lookup "title" msg = Some (VTuple [VStr "Wazuh Alert - Rule 100001"]) /\
    dict_lookup "title" msg <> Some (VStr "Alert - Rule 100001") /\
    PyStr.contains
      (PyStr.json "title" +:+ ": [" +:+ PyStr.json "Wazuh Alert - Rule 100001"
         +:+ "]") s = true /\
    PyStr.contains
      (PyStr.json "title" +:+ ": " +:+ PyStr.json "Alert - Rule 100001") s
    = false.
Proof.
  eexists. eexists. split; [reflexivity|]. split; [reflexivity|].
  split; [reflexivity|]. split; [reflexivity|]. split; [discriminate|].
  split; reflexivity.
Qed.

(** C3, as the code has it.  The fields come in the order Agent, Agentless
    Host, Location, Rule ID; the Agent field is there exactly when
    [alert.agent] is, and the Agentless Host field exactly when
    [alert.agentless] is, whether or not [alert.agent] is there too. *)
Theorem fields_in_order (alert options : value) (s : string) :
  generate_msg alert options = Ok s ->
  exists msg agent_f agentless_f location rule_value,
    build_msg alert options = Ok msg /\ s = json_dumps (VDict msg) /\
    dict_lookup "fields" msg
    = Some (VList (agent_f ++ agentless_f ++
                   [field "Location" location; field "Rule ID" rule_value])) /\
    agent_part alert agent_f /\
    agentless_part alert agentless_f /\
    getitem alert "location" = Ok location.
Proof.
  intros Hs. built Hs msg Hbuilt. pose proof Hbuilt as Hb.
  apply build_msg_Ok in Hb
    as (d & rd & level & c & idv & loc & ts & af & lf & -> & _ & _ & _
        & _ & Hloc & _ & Ha & Hl & ->).
  eexists. exists af, lf, loc. eexists.
  split; [exact Hbuilt|]. split; [reflexivity|]. split; [reflexivity|].
  split; [exact Ha|]. split; [exact Hl|].
  cbn [getitem]. rewrite Hloc. reflexivity.
Qed.

Lemma fields_in_order_witness :
  exists msg rule_value,
    generate_msg alert_both VNone = Ok (json_dumps (VDict msg)) /\
    dict_lookup "fields" msg
    = Some (VList [field "Agent" (VStr "(001) - web01");
                   field "Agentless Host" (VStr "h1");
                   field "Location" (VStr "server1");
                   field "Rule ID" rule_value]).
Proof.
  destruct (fields_in_order alert_both VNone _ eq_refl)
    as (msg & af & lf & loc & rv & _ & Hs & Hf & Ha & Hl & Hloc).
  exists msg, rv. rewrite <- Hs. split; [reflexivity|].
  unfold agent_part in Ha. cbn in Ha.
  destruct Ha as (i & n & [= <-] & [= <-] & ->).
  unfold agentless_part in Hl. cbn in Hl.
  destruct Hl as (h & [= <-] & ->).
  cbn in Hloc. injection Hloc as <-. exact Hf.
Defined.

(** C3, as stated, fails on an alert that carries both [agent] and
    [agentless]: the Agentless Host field is appended after the Agent
    field. *)
Lemma agent_and_agentless_both_listed :
  exists msg,
    getitem alert_both "agent"
    = Ok (VDict [("id", VStr "001"); ("name", VStr "web01")]) /\
    getitem alert_both "agentless" = Ok (VDict [("host", VStr "h1")]) /\
    build_msg alert_both VNone = Ok msg /\
    generate_msg alert_both VNone = Ok (json_dumps (VDict msg)) /\
    dict_lookup "fields" msg
    = Some (VList [field "Agent" (VStr "(001) - web01");
                   field "Agentless Host" (VStr "h1");
                   field "Location" (VStr "server1");
                   field "Rule ID" (VStr "100001 _(Level 3)_")]).
Proof. eexists. repeat split. Qed.

(** C4, as the code has it.  The last field is titled [Rule ID] and its
    value is [str(rule.id)], a space, and [(Level n)] between two
    underscores, [n] being [str(rule.level)]. *)
Theorem rule_id_field_last (alert options rule id level : value) (s : string) :
  getitem alert "rule" = Ok rule ->
  getitem rule "id" = Ok id ->
  getitem rule "level" = Ok level ->
  generate_msg alert options = Ok s ->
  exists msg fs,
    build_msg alert options = Ok msg /\ s = json_dumps (VDict msg) /\
    dict_lookup "fields" msg = Some (VList fs) /\
    last fs
    = Some (field "Rule ID"
              (VStr (py_str id +:+ " _(Level " +:+ py_str level +:+ ")_"))).
Proof.
  intros Hrule Hid Hlevel Hs.
  built Hs msg Hbuilt. pose proof Hbuilt as Hb.
  apply build_msg_Ok in Hb
    as (d & rd & level' & c & idv & loc & ts & af & lf & -> & Hr & Hl & _
        & Hi & _ & _ & _ & _ & ->).
  cbn [getitem] in Hrule. rewrite Hr in Hrule. injection Hrule as <-.
  cbn [getitem] in Hid. rewrite Hi in Hid. injection Hid as ->.
  cbn [getitem] in Hlevel. rewrite Hl in Hlevel. injection Hlevel as ->.
  eexists. eexists. split; [exact Hbuilt|].
  split; [reflexivity|]. split; [reflexivity|].
  rewrite !app_assoc.
  change [field "Location" loc;
          field "Rule ID"
            (VStr (py_str id +:+ " _(Level " +:+ py_str level +:+ ")_"))]
    with ([field "Location" loc] ++
          [field "Rule ID"
             (VStr (py_str id +:+ " _(Level " +:+ py_str level +:+ ")_"))]).
  rewrite app_assoc. apply last_snoc.
Qed.

Lemma rule_id_field_last_witness :
  exists msg fs,
    generate_msg alert_100001 VNone = Ok (json_dumps (VDict msg)) /\
    dict_lookup "fields" msg = Some (VList fs) /\
    last fs = Some (field "Rule ID" (VStr "100001 _(Level 10)_")).
Proof.
  destruct (rule_id_field_last alert_100001 VNone
              (VDict [("id", VStr "100001"); ("level", VInt 10)])
              (VStr "100001") (VInt 10) _ eq_refl eq_refl eq_refl eq_refl)
    as (msg & fs & _ & Hs & Hf & Hl).
  exists msg, fs. rewrite <- Hs. repeat split; assumption.
Defined.

(** C4, as stated, fails on the worked example: the value of the Rule ID
    field is not [100001 (Level 10)]. *)
Lemma rule_id_value_has_underscores :
  exists msg,
    build_msg alert_100001 VNone = Ok msg /\
    generate_msg alert_100001 VNone = Ok (json_dumps (VDict msg)) /\
    dict_lookup "fields" msg
    = Some (VList [field "Location" (VStr "server1");
                   field "Rule ID" (VStr "100001 _(Level 10)_")]) /\
    field "Rule ID" (VStr "100001 _(Level 10)_")
    <> field "Rule ID" (VStr "100001 (Level 10)").
Proof.
  eexists. split; [reflexivity|]. split; [reflexivity|].
  split; [reflexivity | discriminate].
Qed.

(** C8, as the code has it.  The [text] entry of the payload is always
    there: it is [alert.full_log] when the alert has one, and [None],
    which [json.dumps] writes as [null], when it has none. *)
Theorem text_is_full_log_or_null (alert options : value) (s : string) :
  generate_msg alert options = Ok s ->
  exists msg,
    build_msg alert options = Ok msg /\ s = json_dumps (VDict msg) /\
    dict_lookup "text" msg
    = Some (match getitem alert "full_log" with
            | Ok full_log => full_log
            | Err _ => VNone
            end).
Proof.
  intros Hs. built Hs msg Hbuilt. pose proof Hbuilt as Hb.
  apply build_msg_Ok in Hb
    as (d & rd & level & c & idv & loc & ts & af & lf & -> & _ & _ & _
        & _ & _ & _ & _ & _ & ->).
  eexists. split; [exact Hbuilt|]. split; [reflexivity|].
  cbn [getitem]. destruct (dict_lookup "full_log" d); reflexivity.
Qed.

Lemma text_is_full_log_or_null_witness :
  exists msg,
    generate_msg alert_100001 VNone = Ok (json_dumps (VDict msg)) /\
    dict_lookup "text" msg = Some VNone.
Proof.
  destruct (text_is_full_log_or_null alert_100001 VNone _ eq_refl)
    as (msg & _ & Hs & Ht).
  exists msg. rewrite <- Hs. split; [reflexivity | exact Ht].
Defined.

(** C8, as stated, fails on the worked example, which has no [full_log]:
    the payload has a [text] entry, holding [null]. *)
Lemma text_entry_present_without_full_log :
  exists msg s,
    getitem alert_100001 "full_log" = Err (KeyError "full_log") /\
    build_msg alert_100001 VNone = Ok msg /\
    generate_msg alert_100001 VNone = Ok s /\
    dict_lookup "text" msg = Some VNone /\
    dict_lookup "text" msg <> None /\
    PyStr.contains (PyStr.json "text" +:+ ": null") s = true.
Proof.
  eexists. eexists. split; [reflexivity|]. split; [reflexivity|].
  split; [reflexivity|]. split; [reflexivity|]. split; [discriminate|].
  reflexivity.
Qed.

(** ** The pipeline: the claims *)

(** [main] with four arguments or more, by what the files hold. *)
Lemma main_run (args : list string) (w : world) (alert_path url : string) :
  args !! 1%nat = Some alert_path ->
  args !! 3%nat = Some url ->
  match open_file w (find_options (drop 4 args)) with
  | Some (Malformed _) | Some (Unreadable _) =>
      ends (main args) w (Exit ERR_INVALID_JSON)
  | _ =>
      match open_file w alert_path with
      | None => ends (main args) w (Exit ERR_FILE_NOT_FOUND)
      | Some (Malformed _) => ends (main args) w (Exit ERR_INVALID_JSON)
      | Some (Unreadable why) => ends (main args) w (Raise (OSError why))
      | Some (Holds alert) =>
          match generate_msg alert (loaded_options w args) with
          | Err e => ends (main args) w (Raise e)
          | Ok s =>
              exists w',
                main args w = (delivery (net w url s), w') /\
                files w' = files w /\ net w' = net w /\
                posts w' = posts w ++ [(url, s)]
          end
      end
  end.
Proof.
  intros H1 H3.
  assert ((4 <=? length args)%nat = true) as Hlen.
  { apply lookup_lt_Some in H3. apply Nat.leb_le. lia. }
  pose proof (main_spec args w) as Hm. rewrite Hlen in Hm.
  destruct Hm as (w0 & Q0 & Hm).
  assert (forall o, ends (process_args args) w0 o -> ends (main args) w o)
    as Hends.
  { intros o (w1 & Hp & Q1). destruct (Hm o w1 Hp) as (w2 & Hmain & Q2).
    exists w2. split; [exact Hmain|].
    exact (quiet_trans _ _ _ Q0 (quiet_trans _ _ _ Q1 Q2)). }
  pose proof (process_args_spec args w0) as S. rewrite H1, H3 in S.
  rewrite !(quiet_open_file w w0) in S by exact Q0.
  rewrite (quiet_net w w0) in S by exact Q0.
  unfold loaded_options.
  destruct (open_file w (find_options (drop 4 args))) as [[v|why|why]|];
    try (apply Hends; exact S); cbv zeta in S;
    (destruct (open_file w alert_path) as [[alert|why|why]|];
     try (apply Hends; exact S)).
  all: match type of S with
       | context [generate_msg ?a ?opts] =>
           destruct (generate_msg a opts) as [s|e]
       end; try (apply Hends; exact S).
  all: destruct S as (w1 & Hp & F & N & P);
       destruct (Hm _ w1 Hp) as (w2 & Hmain & F2 & N2 & P2);
       destruct Q0 as (F0 & N0 & P0);
       exists w2; split; [exact Hmain|];
       repeat split; congruence.
Qed.

Lemma run_shape_never_bare (args : list string) (w w' : world)
    (o : outcome unit) :
  run_shape args w o w' -> o <> Raise BareException.
Proof.
  intros (_ & _ & [(_ & _ & H) | (p & u & a & s & _ & _ & _ & _ & _ & ->)]).
  - exact H.
  - destruct (net w u s); discriminate.
Qed.

Lemma run_shape_posts (args : list string) (w w' : world) (o : outcome unit)
    (u b : string) :
  run_shape args w o w' ->
  posts w' = posts w ++ [(u, b)] ->
  exists alert_path alert,
    args !! 1%nat = Some alert_path /\ args !! 3%nat = Some u /\
    open_file w alert_path = Some (Holds alert) /\
    generate_msg alert (loaded_options w args) = Ok b.
Proof.
  intros (_ & _ & [(P & _) | (p & u' & a & s & H1 & H3 & Ha & Hg & P & _)]) HP.
  - rewrite P in HP. apply (f_equal length) in HP.
    rewrite length_app in HP. cbn in HP. lia.
  - rewrite P in HP. apply app_inv_head in HP. injection HP as -> ->.
    exists p, a. auto.
Qed.

(** C5, as the code has it.  When the options path names no file,
    [get_json_options] returns [None], with no exit and no exception, and
    the pipeline goes on with [None] as its options: if the alert file
    holds an alert the builder accepts and the POST is answered, [main]
    returns normally, having posted the message built from that alert. *)
Theorem missing_options_give_none (path : string) (w : world) :
  open_file w path = None ->
  (exists w', get_json_options path w = (Ret VNone, w') /\ quiet w w') /\
  (forall (args : list string) (alert_path url : string) (alert : value)
          (s shown : string),
     args !! 1%nat = Some alert_path ->
     args !! 3%nat = Some url ->
     find_options (drop 4 args) = path ->
     open_file w alert_path = Some (Holds alert) ->
     generate_msg alert VNone = Ok s ->
     net w url s = Response shown ->
     exists w',
       main args w = (Ret tt, w') /\
       exit_status (fst (main args w)) = 0 /\
       posts w' = posts w ++ [(url, s)]).
Proof.
  intros Hmissing. split.
  - rewrite get_json_options_eq, Hmissing.
    eexists. split; [reflexivity | apply quiet_logged].
  - intros args alert_path url alert s shown H1 H3 Hpath Ha Hg Hnet.
    pose proof (main_run args w alert_path url H1 H3) as R.
    unfold loaded_options in R. rewrite Hpath, Hmissing, Ha, Hg in R.
    destruct R as (w' & Hmain & _ & _ & P).
    rewrite Hnet in Hmain. cbn [delivery] in Hmain.
    exists w'. rewrite Hmain. repeat split. exact P.
Qed.

Lemma missing_options_give_none_witness :
  (exists w',
     get_json_options "/tmp/custom.options" sample_world = (Ret VNone, w')) /\
  exists s w',
    generate_msg alert_100001 VNone = Ok s /\
    main ["custom-discord"; "/tmp/alert.json"; "user:secret"; HOOK;
          "/tmp/custom.options"] sample_world = (Ret tt, w') /\
    posts w' = [(HOOK, s)].
Proof.
  destruct (missing_options_give_none "/tmp/custom.options" sample_world
              eq_refl) as ((w1 & H1 & _) & H2).
  split; [exists w1; exact H1|].
  destruct (H2 ["custom-discord"; "/tmp/alert.json"; "user:secret"; HOOK;
                "/tmp/custom.options"]
              "/tmp/alert.json" HOOK alert_100001 _ _
              eq_refl eq_refl eq_refl eq_refl eq_refl eq_refl)
    as (w' & Hmain & _ & P).
  eexists. exists w'. split; [reflexivity|]. split; [exact Hmain | exact P].
Defined.

(** C5, as stated, fails: for a path that names no file the loader returns
    [None], which is not the empty record. *)
Lemma missing_options_not_empty_record :
  open_file sample_world "/tmp/custom.options" = None /\
  fst (get_json_options "/tmp/custom.options" sample_world) = Ret VNone /\
  fst (get_json_options "/tmp/custom.options" sample_world) <> Ret (VDict []).
Proof. split; [reflexivity|]. split; [reflexivity | discriminate]. Qed.

(** C6, as the code has it.  When the alert path names no file, [main]
    makes no POST, whatever the other arguments and files; and when there
    are at least four arguments and the options file is missing or holds
    JSON, [main] ends by [sys.exit(6)]. *)
Theorem missing_alert_exits_6 (args : list string) (w : world)
    (alert_path : string) :
  args !! 1%nat = Some alert_path ->
  open_file w alert_path = None ->
  posts (snd (main args w)) = posts w /\
  ((4 <= length args)%nat ->
   (open_file w (find_options (drop 4 args)) = None \/
    exists v, open_file w (find_options (drop 4 args)) = Some (Holds v)) ->
   fst (main args w) = Exit ERR_FILE_NOT_FOUND /\
   exit_status (fst (main args w)) = 6).
Proof.
  intros H1 Hmissing. split.
  - destruct (main_cases args w) as (o & w' & Hmain & _ & _ & H).
    rewrite Hmain. cbn [snd].
    destruct H as [(P & _) | (p & u & a & s & H1' & _ & Ha & _)].
    + exact P.
    + rewrite H1 in H1'. injection H1' as <-. rewrite Hmissing in Ha.
      discriminate.
  - intros Hlen Hopt.
    destruct (args !! 3%nat) as [url|] eqn:H3;
      [|apply lookup_ge_None in H3; lia].
    pose proof (main_run args w alert_path url H1 H3) as R.
    rewrite Hmissing in R.
    assert (ends (main args) w (Exit ERR_FILE_NOT_FOUND)) as (w' & Hmain & _).
    { destruct Hopt as [Ho | (v & Ho)]; rewrite Ho in R; exact R. }
    rewrite Hmain. split; reflexivity.
Qed.

Lemma missing_alert_exits_6_witness :
  posts (snd (main ["custom-discord"; "/tmp/missing.json"; "user:secret";
                    HOOK; "debug"] sample_world)) = [] /\
  fst (main ["custom-discord"; "/tmp/missing.json"; "user:secret"; HOOK;
             "debug"] sample_world) = Exit 6.
Proof.
  destruct (missing_alert_exits_6
              ["custom-discord"; "/tmp/missing.json"; "user:secret"; HOOK;
               "debug"] sample_world "/tmp/missing.json" eq_refl eq_refl)
    as (P & H).
  split; [exact P|].
  destruct H as (Hexit & _); [cbn; lia | left; reflexivity | exact Hexit].
Defined.

(** C6, as stated, fails: the options file is read before the alert file,
    so with an options file that is not JSON the process exits with 7
    although the alert path names no file. *)
Lemma missing_alert_but_exit_7 :
  open_file sample_world "/tmp/missing.json" = None /\
  fst (main ["custom-discord"; "/tmp/missing.json"; "user:secret"; HOOK;
             "/tmp/bad.options"] sample_world) = Exit ERR_INVALID_JSON /\
  exit_status (fst (main ["custom-discord"; "/tmp/missing.json";
                          "user:secret"; HOOK; "/tmp/bad.options"]
                      sample_world)) = 7 /\
  ERR_INVALID_JSON <> ERR_FILE_NOT_FOUND.
Proof. repeat split. discriminate. Qed.

(** C7.  For an alert in which [rule.id], [rule.level], [location] and
    [id] are present, whatever the builder returns is a string of positive
    length and whatever it raises is an error of a subscript or of the
    comparison, so a run on that alert never takes the branch of line 153
    and never ends by its [raise Exception]; and the builder does return
    when moreover the level is an integer and [agent] and [agentless],
    where present, carry the keys it reads. *)
Theorem empty_message_unreachable (alert options rule : value) :
  getitem alert "rule" = Ok rule ->
  (exists x, getitem rule "id" = Ok x) ->
  (exists x, getitem rule "level" = Ok x) ->
  (exists x, getitem alert "location" = Ok x) ->
  (exists x, getitem alert "id" = Ok x) ->
  (forall s, generate_msg alert options = Ok s ->
     s <> "" /\ (String.length s =? 0)%nat = false) /\
  (forall e, generate_msg alert options = Err e -> e <> BareException) /\
  (forall (args : list string) (w : world) (alert_path : string),
     args !! 1%nat = Some alert_path ->
     open_file w alert_path = Some (Holds alert) ->
     fst (process_args args w) <> Raise BareException /\
     fst (main args w) <> Raise BareException) /\
  ((exists L, getitem rule "level" = Ok (VInt L)) ->
   (forall agent, getitem alert "agent" = Ok agent ->
      exists i n, getitem agent "id" = Ok i /\ getitem agent "name" = Ok n) ->
   (forall agentless, getitem alert "agentless" = Ok agentless ->
      exists h, getitem agentless "host" = Ok h) ->
   exists s, generate_msg alert options = Ok s /\ s <> "").
Proof.
  intros Hrule (idv & Hid) (level & Hlevel) (loc & Hloc) (ts & Hts).
  assert (forall s, generate_msg alert options = Ok s ->
            s <> "" /\ (String.length s =? 0)%nat = false) as Hnonempty.
  { intros s Hs. apply generate_msg_nonempty in Hs. split.
    - intros ->. cbn in Hs. lia.
    - apply Nat.eqb_neq. lia. }
  split; [exact Hnonempty|]. split; [|split].
  - intros e He ->. exact (generate_msg_Err _ _ _ He).
  - intros args w alert_path _ _. split.
    + destruct (process_args_cases args w) as (o & w' & Hp & Hs).
      rewrite Hp. exact (run_shape_never_bare _ _ _ _ Hs).
    + destruct (main_cases args w) as (o & w' & Hp & Hs).
      rewrite Hp. exact (run_shape_never_bare _ _ _ _ Hs).
  - intros (L & HL) Hagent Hagentless.
    apply getitem_Ok in Hrule as (d & -> & Hr).
    apply getitem_Ok in Hid as (rd & [= ->] & Hi).
    apply getitem_Ok in HL as (rd' & [= <-] & Hl).
    apply getitem_Ok in Hloc as (d' & [= <-] & Hlo).
    apply getitem_Ok in Hts as (d' & [= <-] & Ht).
    destruct (build_msg_returns d rd (VInt L) (tier L) idv loc ts options
                Hr Hl (color_int L) Hi Hlo Ht) as (msg & Hb).
    + intros agent Ha. apply Hagent. cbn [getitem]. rewrite Ha. reflexivity.
    + intros agentless Ha. apply Hagentless. cbn [getitem]. rewrite Ha.
      reflexivity.
    + exists (json_dumps (VDict msg)).
      assert (generate_msg (VDict d) options = Ok (json_dumps (VDict msg)))
        as Hg by (apply generate_msg_Ok; eauto).
      split; [exact Hg | apply (Hnonempty _ Hg)].
Qed.

Lemma empty_message_unreachable_witness :
  (exists s, generate_msg alert_both VNone = Ok s /\ s <> "") /\
  fst (main ["custom-discord"; "/tmp/alert.json"; "user:secret"; HOOK]
         sample_world) <> Raise BareException.
Proof.
  destruct (empty_message_unreachable alert_both VNone
              (VDict [("id", VStr "100001"); ("level", VInt 3)]) eq_refl
              (ex_intro _ _ eq_refl) (ex_intro _ _ eq_refl)
              (ex_intro _ _ eq_refl) (ex_intro _ _ eq_refl))
    as (_ & _ & _ & Hreturns).
  split.
  - apply Hreturns.
    + exists 3. reflexivity.
    + intros agent [= <-]. eexists. eexists. split; reflexivity.
    + intros agentless [= <-]. eexists. reflexivity.
  - destruct (empty_message_unreachable alert_100001 VNone
                (VDict [("id", VStr "100001"); ("level", VInt 10)]) eq_refl
                (ex_intro _ _ eq_refl) (ex_intro _ _ eq_refl)
                (ex_intro _ _ eq_refl) (ex_intro _ _ eq_refl))
      as (_ & _ & Hrun & _).
    apply (Hrun _ sample_world "/tmp/alert.json"); reflexivity.
Defined.

(** C9.  Building twice from the same alert and options gives the same
    result; and two runs of [main], whatever their arguments, logs and
    debug flags, that load the same alert and the same options and that
    post, post the same bytes. *)
Theorem builder_is_deterministic (alert options : value) :
  (forall r1 r2,
     generate_msg alert options = r1 -> generate_msg alert options = r2 ->
     r1 = r2) /\
  (forall (args1 args2 : list string) (w1 w2 : world) (p1 p2 u1 u2 b1 b2 : string),
     args1 !! 1%nat = Some p1 -> args2 !! 1%nat = Some p2 ->
     open_file w1 p1 = Some (Holds alert) ->
     open_file w2 p2 = Some (Holds alert) ->
     loaded_options w1 args1 = options ->
     loaded_options w2 args2 = options ->
     posts (snd (main args1 w1)) = posts w1 ++ [(u1, b1)] ->
     posts (snd (main args2 w2)) = posts w2 ++ [(u2, b2)] ->
     b1 = b2 /\ generate_msg alert options = Ok b1).
Proof.
  split.
  - intros r1 r2 <- <-. reflexivity.
  - intros args1 args2 w1 w2 p1 p2 u1 u2 b1 b2 A1 A2 F1 F2 O1 O2 P1 P2.
    destruct (main_cases args1 w1) as (o1 & w1' & M1 & S1).
    destruct (main_cases args2 w2) as (o2 & w2' & M2 & S2).
    rewrite M1 in P1. rewrite M2 in P2. cbn [snd] in P1, P2.
    destruct (run_shape_posts _ _ _ _ _ _ S1 P1) as (q1 & a1 & B1 & _ & G1 & E1).
    destruct (run_shape_posts _ _ _ _ _ _ S2 P2) as (q2 & a2 & B2 & _ & G2 & E2).
    rewrite A1 in B1. injection B1 as <-. rewrite F1 in G1. injection G1 as <-.
    rewrite A2 in B2. injection B2 as <-. rewrite F2 in G2. injection G2 as <-.
    rewrite O1 in E1. rewrite O2 in E2. split; [congruence | exact E1].
Qed.

Lemma builder_is_deterministic_witness :
  exists b1 b2,
    posts (snd (main ["custom-discord"; "/tmp/alert.json"; "user:secret";
                      HOOK; "debug"] sample_world)) = [(HOOK, b1)] /\
    posts (snd (main ["custom-discord"; "/tmp/alert.json"; "other:user";
                      "https://discord.example/api/webhooks/2"]
                  sample_world))
    = [("https://discord.example/api/webhooks/2", b2)] /\
    b1 = b2 /\ generate_msg alert_100001 VNone = Ok b1.
Proof.
  destruct (builder_is_deterministic alert_100001 VNone) as (_ & H).
  eexists. eexists. split; [reflexivity|]. split; [reflexivity|].
  apply (H ["custom-discord"; "/tmp/alert.json"; "user:secret"; HOOK;
            "debug"]
           ["custom-discord"; "/tmp/alert.json"; "other:user";
            "https://discord.example/api/webhooks/2"]
           sample_world sample_world "/tmp/alert.json" "/tmp/alert.json"
           HOOK "https://discord.example/api/webhooks/2");
    reflexivity.
Defined.

(** C10.  The options do not reach the message: for any two options
    records the builder gives the same result on the same alert; and two
    runs of [main] that load the same alert and post, post the same bytes
    whatever their options files hold. *)
Theorem options_do_not_interfere (alert o1 o2 : value) :
  generate_msg alert o1 = generate_msg alert o2 /\
  (forall (args1 args2 : list string) (w1 w2 : world) (p1 p2 u1 u2 b1 b2 : string),
     args1 !! 1%nat = Some p1 -> args2 !! 1%nat = Some p2 ->
     open_file w1 p1 = Some (Holds alert) ->
     open_file w2 p2 = Some (Holds alert) ->
     loaded_options w1 args1 = o1 ->
     loaded_options w2 args2 = o2 ->
     posts (snd (main args1 w1)) = posts w1 ++ [(u1, b1)] ->
     posts (snd (main args2 w2)) = posts w2 ++ [(u2, b2)] ->
     b1 = b2).
Proof.
  split; [reflexivity|].
  intros args1 args2 w1 w2 p1 p2 u1 u2 b1 b2 A1 A2 F1 F2 O1 O2 P1 P2.
  destruct (main_cases args1 w1) as (o1' & w1' & M1 & S1).
  destruct (main_cases args2 w2) as (o2' & w2' & M2 & S2).
  rewrite M1 in P1. rewrite M2 in P2. cbn [snd] in P1, P2.
  destruct (run_shape_posts _ _ _ _ _ _ S1 P1) as (q1 & a1 & B1 & _ & G1 & E1).
  destruct (run_shape_posts _ _ _ _ _ _ S2 P2) as (q2 & a2 & B2 & _ & G2 & E2).
  rewrite A1 in B1. injection B1 as <-. rewrite F1 in G1. injection G1 as <-.
  rewrite A2 in B2. injection B2 as <-. rewrite F2 in G2. injection G2 as <-.
  change (generate_msg alert (loaded_options w2 args2))
    with (generate_msg alert (loaded_options w1 args1)) in E2.
  congruence.
Qed.

Lemma options_do_not_interfere_witness :
  loaded_options (initial_world files_with_options net_ok)
    ["custom-discord"; "/tmp/alert.json"; "user:secret"; HOOK;
     "/tmp/custom.options"] = VDict [("username", VStr "wazuh")] /\
  loaded_options sample_world
    ["custom-discord"; "/tmp/alert.json"; "user:secret"; HOOK] = VNone /\
  exists b1 b2,
    posts (snd (main ["custom-discord"; "/tmp/alert.json"; "user:secret";
                      HOOK; "/tmp/custom.options"]
                  (initial_world files_with_options net_ok))) = [(HOOK, b1)] /\
    posts (snd (main ["custom-discord"; "/tmp/alert.json"; "user:secret";
                      HOOK] sample_world)) = [(HOOK, b2)] /\
    b1 = b2.
Proof.
  split; [reflexivity|]. split; [reflexivity|].
  destruct (options_do_not_interfere alert_100001
              (VDict [("username", VStr "wazuh")]) VNone) as (_ & H).
  eexists. eexists. split; [reflexivity|]. split; [reflexivity|].
  apply (H ["custom-discord"; "/tmp/alert.json"; "user:secret"; HOOK;
            "/tmp/custom.options"]
           ["custom-discord"; "/tmp/alert.json"; "user:secret"; HOOK]
           (initial_world files_with_options net_ok) sample_world
           "/tmp/alert.json" "/tmp/alert.json" HOOK HOOK);
    reflexivity.
Defined.


(** ** The module body *)

Lemma reads_only_arg (args : list string) (i : nat) : reads_only (arg args i).
Proof. intros w. unfold arg. destruct (args !! i); [left | right]; eauto. Qed.

Lemma reads_only_lift {A} (r : res A) : reads_only (lift r).
Proof. intros w. destruct r; [left | right]; eauto. Qed.

Lemma reads_only_ret {A} (a : A) : reads_only (ret a).
Proof. intros w. left. eauto. Qed.

Lemma reads_only_bind {A B} (m : M A) (k : A -> M B) :
  reads_only m -> (forall a, reads_only (k a)) -> reads_only (bind m k).
Proof.
  intros Hm Hk w. unfold bind.
  destruct (Hm w) as [(a & ->) | (e & ->)]; [apply Hk | right; eauto].
Qed.

Lemma bind_raises {A B} (m : M A) (k : A -> M B) :
  reads_only m ->
  (forall a w, exists e, k a w = (Raise e, w)) ->
  forall w, exists e, bind m k w = (Raise e, w).
Proof.
  intros Hm Hk w. unfold bind.
  destruct (Hm w) as [(a & ->) | (e & ->)]; [apply Hk | eauto].
Qed.

(** The statements at module level never end normally, so the script run
    as a program stops there, before [main] is called, and posts nothing. *)
Lemma module_level_raises (argv : list string) (w : world) :
  exists e, module_level argv w = (Raise e, w).
Proof.
  revert w. unfold module_level.
  repeat (apply bind_raises; [|intros ?]);
    try apply reads_only_arg; try apply reads_only_lift.
  - intros w. unfold ret, raise.
    destruct (open_file w a) as [[v|why|why]|]; [left | right ..]; eauto.
  - destruct a5; [apply reads_only_ret|].
    apply reads_only_bind; [apply reads_only_lift|].
    intros ?. apply reads_only_lift.
  - intros w. unfold raise. eauto.
Qed.

Lemma script_stops_at_module_level (argv : list string) (w : world) :
  exists e, script argv w = (Raise e, w) /\
            exit_status (fst (script argv w)) = 1.
Proof.
  destruct (module_level_raises argv w) as (e & H).
  exists e. unfold script, bind. rewrite H. split; reflexivity.
Qed.

(** * Further properties *)

(** ** The search for the options file *)

Lemma append_cons (c : ascii) (a b : string) :
  String c a +:+ b = String c (a +:+ b).
Proof. reflexivity. Qed.

Lemma append_empty (b : string) : "" +:+ b = b.
Proof. reflexivity. Qed.

Lemma substring_all (s : string) (m : nat) :
  (String.length s <= m)%nat -> String.substring 0 m s = s.
Proof.
  revert m. induction s as [|c s IH]; intros [|m] H; cbn in *;
    try reflexivity; try lia.
  rewrite IH by lia. reflexivity.
Qed.

Lemma substring_append (p s : string) (m : nat) :
  String.substring (String.length p) m (p +:+ s) = String.substring 0 m s.
Proof.
  induction p as [|c p IH]; [reflexivity|].
  rewrite append_cons. simpl. exact IH.
Qed.

Lemma length_append (p s : string) :
  String.length (p +:+ s) = (String.length p + String.length s)%nat.
Proof.
  induction p as [|c p IH]; [reflexivity|].
  rewrite append_cons. simpl. f_equal. exact IH.
Qed.

Lemma substring_split (s : string) (n m : nat) :
  (n + m = String.length s)%nat ->
  s = String.substring 0 n s +:+ String.substring n m s.
Proof.
  revert n. induction s as [|c s IH]; intros [|n] H; simpl in *.
  - destruct m; [reflexivity | discriminate].
  - discriminate.
  - destruct m as [|m]; [discriminate|]. injection H as H.
    rewrite substring_all by lia. reflexivity.
  - injection H as H. rewrite append_cons. f_equal. apply IH. exact H.
Qed.

Lemma length_substring_le (s : string) (n m : nat) :
  (String.length (String.substring n m s) <= String.length s)%nat.
Proof.
  revert n m. induction s as [|c s IH]; intros [|n] [|m]; cbn; try lia.
  - specialize (IH 0%nat m). lia.
  - specialize (IH n 0%nat). lia.
  - specialize (IH n (S m)). lia.
Qed.

(** The test of line 138, [args[idx][-7:] == "options"], holds exactly of
    the strings that end with [options]. *)
Lemma last_seven_is_options (a : string) :
  String.eqb (PyStr.last_chars 7 a) "options" = true <-> ends_with_options a.
Proof.
  unfold PyStr.last_chars, ends_with_options. rewrite String.eqb_eq. split.
  - intros H.
    assert (7 <= String.length a)%nat as Hlen.
    { pose proof (length_substring_le a (String.length a - 7) 7) as L.
      rewrite H in L. cbn in L. exact L. }
    exists (String.substring 0 (String.length a - 7) a).
    rewrite <- H. apply substring_split. lia.
  - intros (p & ->). rewrite length_append. cbn [String.length].
    replace (String.length p + 7 - 7)%nat with (String.length p) by lia.
    rewrite substring_append. reflexivity.
Qed.

(** X1.  The options path [process_args] settles on is the first argument
    from index 4 on that ends with [options], wherever it stands; it is the
    empty string exactly when no argument from index 4 on ends with
    [options]. *)
Theorem options_path_is_first_match (args : list string) :
  (find_options (drop 4 args) = "" /\
   Forall (fun a => ~ ends_with_options a) (drop 4 args)) \/
  (exists before after,
     drop 4 args = before ++ find_options (drop 4 args) :: after /\
     ends_with_options (find_options (drop 4 args)) /\
     Forall (fun a => ~ ends_with_options a) before).
Proof.
  induction (drop 4 args) as [|a rest IH]; cbn [find_options].
  - left. split; [reflexivity | constructor].
  - destruct (String.eqb (PyStr.last_chars 7 a) "options") eqn:E.
    + right. exists [], rest. split; [reflexivity|].
      split; [apply last_seven_is_options; exact E | constructor].
    + assert (~ ends_with_options a) as Hno.
      { intros H. apply last_seven_is_options in H. congruence. }
      destruct IH as [(Hnone & Hall) | (before & after & Hsplit & Hends & Hall)].
      * left. split; [exact Hnone | constructor; assumption].
      * right. exists (a :: before), after.
        split; [cbn; rewrite <- Hsplit; reflexivity|].
        split; [exact Hends | constructor; assumption].
Qed.

(** ** What a run prints and logs *)

Lemma traced_still {A} (m : M A) :
  (forall w, snd (m w) = w) -> traced m.
Proof.
  intros H w. exists []. rewrite H, !app_nil_r. auto.
Qed.

Lemma traced_ret {A} (a : A) : traced (ret a).
Proof. apply traced_still. reflexivity. Qed.

Lemma traced_raise {A} (e : exn) : traced (@raise A e).
Proof. apply traced_still. reflexivity. Qed.

Lemma traced_sys_exit {A} (code : Z) : traced (@sys_exit A code).
Proof. apply traced_still. reflexivity. Qed.

Lemma traced_lift {A} (r : res A) : traced (lift r).
Proof. apply traced_still. destruct r; reflexivity. Qed.

Lemma traced_arg (args : list string) (i : nat) : traced (arg args i).
Proof. apply traced_still. intros w. unfold arg. destruct (args !! i); reflexivity. Qed.

Lemma traced_debug (l : line) : traced (debug l).
Proof.
  intros w. unfold debug. destruct (debug_enabled w) eqn:E.
  - exists [l]. cbn. rewrite E. repeat split. discriminate.
  - exists []. cbn. rewrite E, !app_nil_r. auto.
Qed.

Lemma traced_bind {A B} (m : M A) (k : A -> M B) :
  traced m -> (forall a, traced (k a)) -> traced (bind m k).
Proof.
  intros Hm Hk w. destruct (Hm w) as (t1 & S1 & L1 & D1 & E1).
  unfold bind. destruct (m w) as [[a|e|c] w1]; cbn [snd] in *;
    try solve [exists t1; auto].
  destruct (Hk a w1) as (t2 & S2 & L2 & D2 & E2).
  exists (t1 ++ t2). rewrite S2, L2, D2, S1, L1, D1, !app_assoc.
  split; [reflexivity|]. split; [reflexivity|]. split; [reflexivity|].
  intros Hoff. rewrite E1 by exact Hoff.
  rewrite E2 by congruence. reflexivity.
Qed.

Lemma traced_try_except {A} (body : M A) (handler : exn -> M A) :
  traced body -> (forall e, traced (handler e)) ->
  traced (try_except body handler).
Proof.
  intros Hm Hk w. destruct (Hm w) as (t1 & S1 & L1 & D1 & E1).
  unfold try_except. destruct (body w) as [[a|e|c] w1]; cbn [snd] in *;
    try solve [exists t1; auto].
  destruct (Hk e w1) as (t2 & S2 & L2 & D2 & E2).
  exists (t1 ++ t2). rewrite S2, L2, D2, S1, L1, D1, !app_assoc.
  split; [reflexivity|]. split; [reflexivity|]. split; [reflexivity|].
  intros Hoff. rewrite E1 by exact Hoff.
  rewrite E2 by congruence. reflexivity.
Qed.

Lemma traced_get_json_alert (path : string) : traced (get_json_alert path).
Proof.
  intros w. unfold get_json_alert.
  destruct (open_file w path) as [[v|why|why]|].
  - exact (traced_ret v w).
  - exact (traced_bind _ _ (traced_debug _) (fun _ => traced_sys_exit _) w).
  - exact (traced_raise _ w).
  - exact (traced_bind _ _ (traced_debug _) (fun _ => traced_sys_exit _) w).
Qed.

Lemma traced_get_json_options (path : string) : traced (get_json_options path).
Proof.
  intros w. unfold get_json_options.
  destruct (open_file w path) as [[v|why|why]|].
  - exact (traced_ret v w).
  - exact (traced_bind _ _ (traced_debug _) (fun _ => traced_sys_exit _) w).
  - exact (traced_bind _ _ (traced_debug _) (fun _ => traced_sys_exit _) w).
  - exact (traced_bind _ _ (traced_debug _) (fun _ => traced_ret _) w).
Qed.

Lemma traced_send_msg (msg url : string) : traced (send_msg msg url).
Proof.
  intros w. unfold send_msg, bind, modify. cbn [net record_post].
  destruct (net w url msg) as [shown|why].
  - destruct (traced_debug (Text ("# Response received: " +:+ shown))
                (record_post url msg w)) as (t & H).
    exists t. exact H.
  - exists []. cbn. rewrite !app_nil_r. auto.
Qed.

Lemma traced_process_args (args : list string) : traced (process_args args).
Proof.
  unfold process_args. cbv zeta.
  repeat first
    [ apply traced_send_msg
    | apply traced_debug | apply traced_arg | apply traced_get_json_options
    | apply traced_get_json_alert | apply traced_lift
    | apply traced_ret | apply traced_raise
    | apply traced_bind; [|intros ?]
    | match goal with |- traced (if ?b then _ else _) => destruct b end ].
Qed.

(** [main] once its arguments are read, with four of them or more. *)
Lemma main_enters (args : list string) (w : world) :
  (4 <=? length args)%nat = true ->
  main args w =
  try_except (process_args args)
    (fun e => bind (debug (StrOfExn e)) (fun _ => raise e))
    (log_write (Text (invocation_line args +:+ String "010"%char ""))
       (set_debug_enabled (debug_requested args w) w)).
Proof.
  intros Hlen. unfold main, invocation_line, debug_requested. rewrite Hlen.
  cbn [negb].
  destruct args as [|a0 [|a1 [|a2 [|a3 rest]]]]; try discriminate Hlen.
  remember (process_args (a0 :: a1 :: a2 :: a3 :: rest)) as p.
  destruct rest as [|a4 [|a5 rest]]; unfold try_except, bind; cbn;
    reflexivity.
Qed.

(** [main] with fewer than four arguments. *)
Lemma main_bad_arguments (args : list string) (w : world) :
  (4 <=? length args)%nat = false ->
  main args w =
  (Exit ERR_BAD_ARGUMENTS,
   logged (Text ("# ERROR: Exiting, bad arguments. Inputted: "
                   +:+ py_repr (VList (map VStr args))))
     (log_write (Text ("# ERROR: Wrong arguments" +:+ String "010"%char ""))
        w)).
Proof.
  intros Hlen. unfold main, try_except. rewrite Hlen. cbn [negb].
  unfold bind at 1. cbn [ret]. unfold bind at 1. cbn [modify].
  unfold bind at 1. rewrite bind_debug. reflexivity.
Qed.

(** X2.  Whatever the arguments and the files, [main] appends to the log
    first its invocation line, and after it exactly the lines it prints,
    in the same order; it prints and logs nothing more than the invocation
    line unless debugging is on, which is the case exactly when the
    argument at index 4 is [debug] (with fewer than four arguments the
    flag stays as it was). *)
Theorem main_logs_what_it_prints (args : list string) (w : world) :
  debug_enabled (snd (main args w)) = debug_requested args w /\
  exists t,
    log (snd (main args w))
    = log w ++ Text (invocation_line args +:+ String "010"%char "") :: t /\
    stdout (snd (main args w)) = stdout w ++ t /\
    (debug_requested args w = false -> t = []).
Proof.
  destruct (4 <=? length args)%nat eqn:Hlen.
  - rewrite (main_enters args w Hlen).
    set (w0 := log_write _ (set_debug_enabled _ w)).
    destruct (traced_try_except (process_args args)
                (fun e => bind (debug (StrOfExn e)) (fun _ => raise e))
                (traced_process_args args)
                (fun e => traced_bind _ _ (traced_debug _)
                            (fun _ => traced_raise e)) w0)
      as (t & S & L & D & E).
    split; [rewrite D; reflexivity|].
    exists t. rewrite S, L. subst w0. cbn [log stdout log_write
      set_debug_enabled debug_enabled] in *.
    rewrite <- app_assoc. repeat split. exact E.
  - rewrite (main_bad_arguments args w Hlen).
    unfold invocation_line, debug_requested. rewrite Hlen. cbn [snd].
    match goal with |- context [logged ?l ?w0] =>
      destruct (traced_debug l w0) as (t & S & L & D & E);
      rewrite debug_eq in S, L, D; cbn [snd] in S, L, D
    end.
    split; [exact D|]. exists t. rewrite S, L.
    cbn [log stdout log_write]. rewrite <- app_assoc.
    split; [reflexivity|]. split; [reflexivity | exact E].
Qed.

(** ** How a run ends *)

(** With four arguments or more, [main] ends by [sys.exit(6)], by
    [sys.exit(7)], by an exception, or normally after an answered POST. *)
Lemma main_run_outcome (args : list string) (w : world) (alert_path url : string) :
  args !! 1%nat = Some alert_path ->
  args !! 3%nat = Some url ->
  exists o w',
    main args w = (o, w') /\
    ((posts w' = posts w /\
      (o = Exit ERR_FILE_NOT_FOUND \/ o = Exit ERR_INVALID_JSON \/
       exists e, o = Raise e)) \/
     (exists s, posts w' = posts w ++ [(url, s)] /\
        ((o = Ret tt /\ exists shown, net w url s = Response shown) \/
         (exists why, o = Raise (RequestException why) /\
                      net w url s = TransportError why)))).
Proof.
  intros H1 H3. pose proof (main_run args w alert_path url H1 H3) as R.
  assert (forall o, ends (main args) w o ->
            o = Exit ERR_FILE_NOT_FOUND \/ o = Exit ERR_INVALID_JSON \/
            (exists e, o = Raise e) ->
            exists o w',
              main args w = (o, w') /\
              ((posts w' = posts w /\
                (o = Exit ERR_FILE_NOT_FOUND \/ o = Exit ERR_INVALID_JSON \/
                 exists e, o = Raise e)) \/
               (exists s, posts w' = posts w ++ [(url, s)] /\
                  ((o = Ret tt /\ exists shown, net w url s = Response shown) \/
                   (exists why, o = Raise (RequestException why) /\
                                net w url s = TransportError why)))))
    as Hquiet.
  { intros o (w' & Hmain & _ & _ & P) Ho. exists o, w'. auto. }
  destruct (open_file w (find_options (drop 4 args))) as [[v|why|why]|];
    try (apply (Hquiet _ R); eauto);
    (destruct (open_file w alert_path) as [[alert|why|why]|];
     try (apply (Hquiet _ R); eauto)).
  all: match type of R with
       | context [generate_msg ?a ?opts] =>
           destruct (generate_msg a opts) as [s|e]
       end; try (apply (Hquiet _ R); eauto).
  all: destruct R as (w' & Hmain & _ & _ & P);
       eexists; exists w'; (split; [exact Hmain|]);
       right; exists s; (split; [exact P|]);
       destruct (net w url s) as [shown|why]; cbn [delivery]; eauto.
Qed.

(** X3.  The exit status of a run of [main] is 0, 1, 2, 6 or 7; it is 2
    exactly when fewer than four arguments are given; and it is 0 only
    after one POST to [args[3]] that the server answered. *)
Theorem main_exit_status (args : list string) (w : world) :
  In (exit_status (fst (main args w))) [0; 1; 2; 6; 7] /\
  ((length args < 4)%nat <-> exit_status (fst (main args w)) = 2) /\
  (exit_status (fst (main args w)) = 0 ->
   exists url s shown,
     args !! 3%nat = Some url /\ net w url s = Response shown /\
     posts (snd (main args w)) = posts w ++ [(url, s)]).
Proof.
  destruct (4 <=? length args)%nat eqn:Hlen.
  - apply Nat.leb_le in Hlen.
    destruct (args !! 1%nat) as [p|] eqn:H1;
      [|apply lookup_ge_None in H1; lia].
    destruct (args !! 3%nat) as [u|] eqn:H3;
      [|apply lookup_ge_None in H3; lia].
    destruct (main_run_outcome args w p u H1 H3) as (o & w' & Hmain & H).
    rewrite Hmain. cbn [fst snd].
    destruct H as [(P & [-> | [-> | (e & ->)]])
                  | (s & P & [(-> & shown & Hnet) | (why & -> & Hnet)])];
      cbn [exit_status]; unfold ERR_FILE_NOT_FOUND, ERR_INVALID_JSON.
    all: split; [cbn; auto 10|].
    all: split; [split; [lia | discriminate]|].
    all: try discriminate.
    intros _. exists u, s, shown. auto.
  - rewrite (main_bad_arguments args w Hlen). cbn [fst snd exit_status].
    apply Nat.leb_gt in Hlen. unfold ERR_BAD_ARGUMENTS.
    split; [cbn; auto 10|].
    split; [split; [reflexivity | intros _; exact Hlen]|].
    discriminate.
Qed.

(** X4.  A run of [main] makes at most one POST and touches no earlier
    one: either the list of posts is as it was, or one entry is added, to
    [args[3]], whose body is what [generate_msg] returns on the content of
    the alert file [args[1]]. *)
Theorem main_posts_at_most_once (args : list string) (w : world) :
  posts (snd (main args w)) = posts w \/
  exists alert_path url alert s,
    args !! 1%nat = Some alert_path /\ args !! 3%nat = Some url /\
    open_file w alert_path = Some (Holds alert) /\
    generate_msg alert (loaded_options w args) = Ok s /\
    posts (snd (main args w)) = posts w ++ [(url, s)].
Proof.
  destruct (main_cases args w) as (o & w' & Hmain & _ & _ & H).
  rewrite Hmain. cbn [snd].
  destruct H as [(P & _) | (p & u & a & s & H1 & H3 & Ha & Hg & P & _)].
  - left. exact P.
  - right. exists p, u, a, s. auto.
Qed.

(** X5.  When the alert file is there but is not JSON, a run with four
    arguments or more ends by [sys.exit(7)] without a POST, whatever the
    options file is. *)
Theorem malformed_alert_exits_7 (args : list string) (w : world)
    (alert_path why : string) :
  (4 <= length args)%nat ->
  args !! 1%nat = Some alert_path ->
  open_file w alert_path = Some (Malformed why) ->
  fst (main args w) = Exit ERR_INVALID_JSON /\
  exit_status (fst (main args w)) = 7 /\
  posts (snd (main args w)) = posts w.
Proof.
  intros Hlen H1 Ha.
  destruct (args !! 3%nat) as [url|] eqn:H3;
    [|apply lookup_ge_None in H3; lia].
  pose proof (main_run args w alert_path url H1 H3) as R. rewrite Ha in R.
  assert (ends (main args) w (Exit ERR_INVALID_JSON))
    as (w' & Hmain & _ & _ & P).
  { destruct (open_file w (find_options (drop 4 args))) as [[v|y|y]|];
      exact R. }
  rewrite Hmain. auto.
Qed.

Lemma malformed_alert_exits_7_witness :
  fst (main ["custom-discord"; "/tmp/bad.options"; "user:secret"; HOOK]
         sample_world) = Exit 7.
Proof.
  apply (malformed_alert_exits_7 _ sample_world "/tmp/bad.options"
           "Expecting value: line 1 column 1 (char 0)");
    [cbn; lia | reflexivity | reflexivity].
Defined.

(** X6.  When the options file is there but cannot be loaded, because it
    is not JSON or because reading it fails, a run with four arguments or
    more ends by [sys.exit(7)] without a POST, whatever the alert file
    is. *)
Theorem bad_options_exit_7 (args : list string) (w : world) (why : string) :
  (4 <= length args)%nat ->
  open_file w (find_options (drop 4 args)) = Some (Malformed why) \/
  open_file w (find_options (drop 4 args)) = Some (Unreadable why) ->
  fst (main args w) = Exit ERR_INVALID_JSON /\
  exit_status (fst (main args w)) = 7 /\
  posts (snd (main args w)) = posts w.
Proof.
  intros Hlen Ho.
  destruct (args !! 1%nat) as [p|] eqn:H1;
    [|apply lookup_ge_None in H1; lia].
  destruct (args !! 3%nat) as [url|] eqn:H3;
    [|apply lookup_ge_None in H3; lia].
  pose proof (main_run args w p url H1 H3) as R.
  assert (ends (main args) w (Exit ERR_INVALID_JSON))
    as (w' & Hmain & _ & _ & P).
  { destruct Ho as [Ho | Ho]; rewrite Ho in R; exact R. }
  rewrite Hmain. auto.
Qed.

Lemma bad_options_exit_7_witness :
  fst (main ["custom-discord"; "/tmp/alert.json"; "user:secret"; HOOK;
             "debug"; "/tmp/bad.options"] sample_world) = Exit 7 /\
  posts (snd (main ["custom-discord"; "/tmp/alert.json"; "user:secret"; HOOK;
                    "debug"; "/tmp/bad.options"] sample_world)) = [].
Proof.
  destruct (bad_options_exit_7
              ["custom-discord"; "/tmp/alert.json"; "user:secret"; HOOK;
               "debug"; "/tmp/bad.options"] sample_world
              "Expecting value: line 1 column 1 (char 0)")
    as (H & _ & P); [cbn; lia | left; reflexivity |].
  split; [exact H | exact P].
Defined.

(** X7.  When reading the alert file fails otherwise than by its absence
    or by bad JSON, the error is not turned into an exit code: [main]
    ends by that exception, so with status 1, without a POST (provided
    the options file is missing or holds JSON). *)
Theorem unreadable_alert_propagates (args : list string) (w : world)
    (alert_path why : string) :
  (4 <= length args)%nat ->
  args !! 1%nat = Some alert_path ->
  open_file w alert_path = Some (Unreadable why) ->
  (open_file w (find_options (drop 4 args)) = None \/
   exists v, open_file w (find_options (drop 4 args)) = Some (Holds v)) ->
  fst (main args w) = Raise (OSError why) /\
  exit_status (fst (main args w)) = 1 /\
  posts (snd (main args w)) = posts w.
Proof.
  intros Hlen H1 Ha Ho.
  destruct (args !! 3%nat) as [url|] eqn:H3;
    [|apply lookup_ge_None in H3; lia].
  pose proof (main_run args w alert_path url H1 H3) as R. rewrite Ha in R.
  assert (ends (main args) w (Raise (OSError why)))
    as (w' & Hmain & _ & _ & P).
  { destruct Ho as [Ho | (v & Ho)]; rewrite Ho in R; exact R. }
  rewrite Hmain. auto.
Qed.

(** X8.  When the POST fails in the transport, it is made once and not
    again, and [main] ends by the exception of the transport, so with
    status 1. *)
Theorem transport_failure_is_raised (args : list string) (w : world)
    (alert_path url s why : string) (alert : value) :
  args !! 1%nat = Some alert_path ->
  args !! 3%nat = Some url ->
  (open_file w (find_options (drop 4 args)) = None \/
   exists v, open_file w (find_options (drop 4 args)) = Some (Holds v)) ->
  open_file w alert_path = Some (Holds alert) ->
  generate_msg alert VNone = Ok s ->
  net w url s = TransportError why ->
  fst (main args w) = Raise (RequestException why) /\
  exit_status (fst (main args w)) = 1 /\
  posts (snd (main args w)) = posts w ++ [(url, s)].
Proof.
  intros H1 H3 Ho Ha Hg Hnet.
  pose proof (main_run args w alert_path url H1 H3) as R. rewrite Ha in R.
  assert (generate_msg alert (loaded_options w args) = Ok s) as Hg'
    by exact Hg.
  assert (exists w', main args w = (delivery (net w url s), w') /\
                     posts w' = posts w ++ [(url, s)])
    as (w' & Hmain & P).
  { destruct Ho as [Ho | (v & Ho)]; rewrite Ho, Hg' in R;
      destruct R as (w' & Hmain & _ & _ & P); eauto. }
  rewrite Hmain, Hnet. auto.
Qed.

Lemma unreadable_alert_propagates_witness :
  fst (main ["custom-discord"; "/tmp/alert.json"; "user:secret"; HOOK]
         (initial_world files_unreadable net_ok))
  = Raise (OSError "[Errno 13] Permission denied") /\
  posts (snd (main ["custom-discord"; "/tmp/alert.json"; "user:secret"; HOOK]
                (initial_world files_unreadable net_ok))) = [].
Proof.
  destruct (unreadable_alert_propagates
              ["custom-discord"; "/tmp/alert.json"; "user:secret"; HOOK]
              (initial_world files_unreadable net_ok) "/tmp/alert.json"
              "[Errno 13] Permission denied")
    as (H & _ & P);
    [cbn; lia | reflexivity | reflexivity | left; reflexivity |].
  split; [exact H | exact P].
Defined.

Lemma transport_failure_is_raised_witness :
  exists s,
    generate_msg alert_100001 VNone = Ok s /\
    fst (main ["custom-discord"; "/tmp/alert.json"; "user:secret"; HOOK]
           (initial_world sample_files net_down))
    = Raise (RequestException "Connection refused") /\
    posts (snd (main ["custom-discord"; "/tmp/alert.json"; "user:secret"; HOOK]
                  (initial_world sample_files net_down))) = [(HOOK, s)].
Proof.
  eexists. split; [reflexivity|].
  destruct (transport_failure_is_raised
              ["custom-discord"; "/tmp/alert.json"; "user:secret"; HOOK]
              (initial_world sample_files net_down) "/tmp/alert.json" HOOK
              _ "Connection refused" alert_100001
              eq_refl eq_refl (or_introl eq_refl) eq_refl eq_refl eq_refl)
    as (H & _ & P).
  split; [exact H | exact P].
Defined.

(** ** What a run depends on *)

(** X9.  The outcome of [main] and the POST it makes depend on the
    arguments only through [args[1]], [args[3]] and the arguments from
    index 4 on, and on the state only through the network and the content
    of the alert file and of the options file: the program name, the
    identity [args[2]], the log, the standard output, the earlier posts,
    the debug flag at the start and every other file are without
    effect. *)
Theorem main_depends_on_two_files (args1 args2 : list string)
    (w1 w2 : world) :
  args1 !! 1%nat = args2 !! 1%nat ->
  args1 !! 3%nat = args2 !! 3%nat ->
  drop 4 args1 = drop 4 args2 ->
  net w1 = net w2 ->
  (forall p, args1 !! 1%nat = Some p -> open_file w1 p = open_file w2 p) ->
  open_file w1 (find_options (drop 4 args1))
  = open_file w2 (find_options (drop 4 args1)) ->
  fst (main args1 w1) = fst (main args2 w2) /\
  exists new,
    posts (snd (main args1 w1)) = posts w1 ++ new /\
    posts (snd (main args2 w2)) = posts w2 ++ new.
Proof.
  intros A1 A3 A4 Hnet Halert Hopt.
  destruct (args1 !! 3%nat) as [url|] eqn:H3.
  - assert (exists p, args1 !! 1%nat = Some p) as (p & H1).
    { apply lookup_lt_Some in H3. apply lookup_lt_is_Some. lia. }
    pose proof (main_run args1 w1 p url H1 H3) as R1.
    assert (args2 !! 1%nat = Some p) as H1' by congruence.
    pose proof (main_run args2 w2 p url H1' (eq_sym A3)) as R2.
    unfold loaded_options in R1, R2.
    rewrite <- A4, <- Hopt, <- (Halert p H1), <- Hnet in R2.
    assert (forall o, ends (main args1) w1 o -> ends (main args2) w2 o ->
              fst (main args1 w1) = fst (main args2 w2) /\
              exists new,
                posts (snd (main args1 w1)) = posts w1 ++ new /\
                posts (snd (main args2 w2)) = posts w2 ++ new) as Hquiet.
    { intros o (v1 & M1 & _ & _ & P1) (v2 & M2 & _ & _ & P2).
      rewrite M1, M2. split; [reflexivity|]. exists [].
      cbn [snd]. rewrite P1, P2, !app_nil_r. auto. }
    destruct (open_file w1 (find_options (drop 4 args1))) as [[v|y|y]|];
      try (exact (Hquiet _ R1 R2));
      (destruct (open_file w1 p) as [[alert|y|y]|];
       try (exact (Hquiet _ R1 R2))).
    all: match type of R1 with
         | context [generate_msg ?a ?opts] =>
             destruct (generate_msg a opts) as [s|e]
         end; try (exact (Hquiet _ R1 R2)).
    all: destruct R1 as (v1 & M1 & _ & _ & P1);
         destruct R2 as (v2 & M2 & _ & _ & P2);
         rewrite M1, M2; (split; [reflexivity|]);
         exists [(url, s)]; auto.
  - assert ((4 <=? length args1)%nat = false) as L1.
    { apply lookup_ge_None in H3. apply Nat.leb_gt. lia. }
    assert ((4 <=? length args2)%nat = false) as L2.
    { symmetry in A3. apply lookup_ge_None in A3. apply Nat.leb_gt. lia. }
    rewrite (main_bad_arguments args1 w1 L1), (main_bad_arguments args2 w2 L2).
    split; [reflexivity|]. exists []. cbn [snd]. rewrite !app_nil_r.
    split.
    + exact (quiet_posts _ _ (quiet_logged_r _ _ _ (quiet_log_write _ _))).
    + exact (quiet_posts _ _ (quiet_logged_r _ _ _ (quiet_log_write _ _))).
Qed.

Lemma main_depends_on_two_files_witness :
  fst (main ["custom-discord"; "/tmp/alert.json"; "user:secret"; HOOK]
         sample_world)
  = fst (main ["/var/ossec/integrations/custom-discord"; "/tmp/alert.json";
               "someone:else"; HOOK] busy_world) /\
  exists new,
    posts (snd (main ["custom-discord"; "/tmp/alert.json"; "user:secret";
                      HOOK] sample_world)) = new /\
    posts (snd (main ["/var/ossec/integrations/custom-discord";
                      "/tmp/alert.json"; "someone:else"; HOOK] busy_world))
    = ("https://discord.example/api/webhooks/0", "{}") :: new.
Proof.
  destruct (main_depends_on_two_files
              ["custom-discord"; "/tmp/alert.json"; "user:secret"; HOOK]
              ["/var/ossec/integrations/custom-discord"; "/tmp/alert.json";
               "someone:else"; HOOK] sample_world busy_world
              eq_refl eq_refl eq_refl eq_refl)
    as (Ho & new & P1 & P2).
  - intros p [= <-]. reflexivity.
  - reflexivity.
  - split; [exact Ho|]. exists new. split; [exact P1 | exact P2].
Defined.

(** ** The message builder: when it returns, what it raises *)



(** X11.  The [description] entry of the payload is [rule.description]
    when the rule has that key, whatever it holds, and the placeholder
    [N/A] when it has not. *)
Theorem description_or_placeholder (alert options rule : value) (s : string) :
  getitem alert "rule" = Ok rule ->
  generate_msg alert options = Ok s ->
  exists msg,
    build_msg alert options = Ok msg /\ s = json_dumps (VDict msg) /\
    dict_lookup "description" msg
    = Some (match getitem rule "description" with
            | Ok description => description
            | Err _ => VStr "N/A"
            end).
Proof.
  intros Hrule Hs. built Hs msg Hbuilt. pose proof Hbuilt as Hb.
  apply build_msg_Ok in Hb
    as (d & rd & level & c & idv & loc & ts & af & lf & -> & Hr & _ & _
        & _ & _ & _ & _ & _ & ->).
  cbn [getitem] in Hrule. rewrite Hr in Hrule. injection Hrule as <-.
  eexists. split; [exact Hbuilt|]. split; [reflexivity|].
  cbn [getitem]. destruct (dict_lookup "description" rd); reflexivity.
Qed.

Lemma description_or_placeholder_witness :
  exists msg,
    build_msg alert_100001 VNone = Ok msg /\
    dict_lookup "description" msg = Some (VStr "N/A").
Proof.
  destruct (description_or_placeholder alert_100001 VNone
              (VDict [("id", VStr "100001"); ("level", VInt 10)]) _
              eq_refl eq_refl) as (msg & Hb & _ & Hd).
  exists msg. split; [exact Hb | exact Hd].
Defined.

(** X12.  The payload is an object with exactly the six keys [color],
    [title], [description], [text], [fields], [ts], in that order, and its
    [ts] entry is [alert.id]. *)
Theorem payload_keys_and_ts (alert options : value) (s : string) :
  generate_msg alert options = Ok s ->
  exists msg,
    build_msg alert options = Ok msg /\ s = json_dumps (VDict msg) /\
    map fst msg = ["color"; "title"; "description"; "text"; "fields"; "ts"] /\
    getitem (VDict msg) "ts" = getitem alert "id".
Proof.
  intros Hs. built Hs msg Hbuilt. pose proof Hbuilt as Hb.
  apply build_msg_Ok in Hb
    as (d & rd & level & c & idv & loc & ts & af & lf & -> & _ & _ & _
        & _ & _ & Hts & _ & _ & ->).
  eexists. split; [exact Hbuilt|]. split; [reflexivity|].
  split; [reflexivity|]. cbn [getitem]. rewrite Hts. reflexivity.
Qed.

Lemma payload_keys_and_ts_witness :
  exists msg,
    build_msg alert_both VNone = Ok msg /\
    map fst msg = ["color"; "title"; "description"; "text"; "fields"; "ts"] /\
    getitem (VDict msg) "ts" = Ok (VStr "1690000000.1").
Proof.
  destruct (payload_keys_and_ts alert_both VNone _ eq_refl)
    as (msg & Hb & _ & Hk & Hts).
  exists msg. split; [exact Hb|]. split; [exact Hk | exact Hts].
Defined.

Lemma getitem_Err_key (v : value) (key : string) (e : exn) :
  getitem v key = Err e -> e = TypeError \/ e = KeyError key.
Proof.
  destruct v; cbn; try (intros [= <-]; left; reflexivity).
  destruct (dict_lookup key d); [discriminate | intros [= <-]; right; reflexivity].
Qed.

Lemma color_Err_TypeError (level : value) (e : exn) :
  color level = Err e -> e = TypeError.
Proof.
  unfold color, py_cmp. destruct (as_int level) as [z|]; cbn [res_bind].
  - destruct (z <? 5); [discriminate|]. destruct (Z.geb z 5); cbn [res_bind].
    + destruct (z <=? 7); discriminate.
    + discriminate.
  - intros [= <-]. reflexivity.
Qed.

Ltac key_error H :=
  injection H as <-; right; eexists; split; [reflexivity | cbn; auto 10].

Ltac type_error H := injection H as <-; left; reflexivity.

Ltac subscript_error H E :=
  injection H as <-; apply getitem_Err_key in E as [-> | ->];
  [left; reflexivity | right; eexists; split; [reflexivity | cbn; auto 10]].

(** X13.  When the builder raises, it is a [TypeError] (the alert, the
    rule, an agent or an agentless entry is not an object, or the level is
    not a number) or the [KeyError] of one of [rule], [level], [id],
    [name], [host], [location]: never an [AttributeError], and never a
    [KeyError] for [description], [full_log], [agent] or [agentless],
    which are tested before they are read. *)
Theorem builder_raises_only (alert options : value) (e : exn) :
  generate_msg alert options = Err e -> builder_error e.
Proof.
  unfold generate_msg, builder_error. intros H.
  destruct (build_msg alert options) as [msg|e'] eqn:Hb; cbn [res_bind] in H;
    [discriminate|]. injection H as <-.
  destruct alert as [| | | | | |d]; try (cbn in Hb; type_error Hb).
  unfold build_msg in Hb. cbn [getitem] in Hb.
  destruct (dict_lookup "rule" d) as [rule|]; cbn [res_bind] in Hb;
    [|key_error Hb].
  destruct rule as [| | | | | |rd]; cbn [getitem res_bind] in Hb;
    try type_error Hb.
  destruct (dict_lookup "level" rd) as [level|]; cbn [res_bind] in Hb;
    [|key_error Hb].
  destruct (color level) as [c|ec] eqn:Hc; cbn [res_bind] in Hb;
    [|injection Hb as <-; left; exact (color_Err_TypeError _ _ Hc)].
  destruct (dict_lookup "id" rd) as [idv|]; cbn [res_bind] in Hb;
    [|key_error Hb].
  rewrite py_in_dict in Hb. cbn [res_bind] in Hb.
  destruct (dict_lookup "description" rd) as [description|];
    cbn [res_bind py_get] in Hb.
  all: rewrite msg_start in Hb; rewrite py_in_dict in Hb;
    cbn [res_bind] in Hb.
  all: destruct (dict_lookup "agent" d) as [agent|]; cbn [res_bind] in Hb.
  all: try (destruct (getitem agent "id") as [agent_id|] eqn:Ei;
            cbn [res_bind] in Hb; [|subscript_error Hb Ei];
            destruct (getitem agent "name") as [agent_name|] eqn:En;
            cbn [res_bind] in Hb; [|subscript_error Hb En];
            rewrite fields_append_msg in Hb; cbn [res_bind] in Hb).
  all: rewrite py_in_dict in Hb; cbn [res_bind] in Hb.
  all: destruct (dict_lookup "agentless" d) as [agentless|];
    cbn [res_bind] in Hb.
  all: try (destruct (getitem agentless "host") as [host|] eqn:Eh;
            cbn [res_bind] in Hb; [|subscript_error Hb Eh];
            rewrite fields_append_msg in Hb; cbn [res_bind] in Hb).
  all: destruct (dict_lookup "location" d) as [location|];
    cbn [res_bind] in Hb; [|key_error Hb].
  all: rewrite !fields_append_msg in Hb; cbn [res_bind] in Hb.
  all: rewrite !fields_append_msg in Hb; cbn [res_bind] in Hb.
  all: destruct (dict_lookup "id" d) as [ts|]; cbn [res_bind] in Hb;
    [discriminate | key_error Hb].
Qed.

Lemma builder_raises_only_witness :
  generate_msg (VDict [("rule", VDict [("id", VStr "100001")])]) VNone
  = Err (KeyError "level") /\
  builder_error (KeyError "level").
Proof.
  split; [reflexivity|].
  apply (builder_raises_only
           (VDict [("rule", VDict [("id", VStr "100001")])]) VNone).
  reflexivity.
Defined.

(** ** The payload is ASCII *)

Lemma all_chars_append (p : ascii -> bool) (s t : string) :
  all_chars p (s +:+ t) = all_chars p s && all_chars p t.
Proof.
  induction s as [|c s IH].
  - rewrite append_empty. reflexivity.
  - rewrite append_cons. cbn [all_chars]. rewrite IH. apply andb_assoc.
Qed.

Lemma json_char_printable (c : ascii) :
  all_chars printable_ascii (PyStr.json_char c) = true.
Proof. destruct c as [[] [] [] [] [] [] [] []]; vm_compute; reflexivity. Qed.

Lemma json_printable (s : string) :
  all_chars printable_ascii (PyStr.json s) = true.
Proof.
  unfold PyStr.json. cbn [all_chars]. rewrite all_chars_append.
  apply andb_true_intro. split; [reflexivity|].
  apply andb_true_intro. split; [|reflexivity].
  induction s as [|c s IH]; [reflexivity|].
  cbn [PyStr.json_chars]. rewrite all_chars_append, json_char_printable.
  exact IH.
Qed.

Lemma string_of_uint_printable (d : Decimal.uint) :
  all_chars printable_ascii (NilEmpty.string_of_uint d) = true.
Proof. induction d; cbn [NilEmpty.string_of_uint all_chars]; auto. Qed.

Lemma of_int_printable (z : Z) :
  all_chars printable_ascii (PyStr.of_int z) = true.
Proof.
  unfold PyStr.of_int, NilEmpty.string_of_int. destruct (Z.to_int z).
  - apply string_of_uint_printable.
  - cbn [all_chars]. rewrite string_of_uint_printable. reflexivity.
Qed.

Lemma concat_printable (l : list string) :
  Forall (fun s => all_chars printable_ascii s = true) l ->
  all_chars printable_ascii (String.concat ", " l) = true.
Proof.
  induction 1 as [|s l Hs Hl IH]; [reflexivity|].
  cbn [String.concat]. destruct l as [|t l]; [exact Hs|].
  rewrite !all_chars_append, Hs, IH. reflexivity.
Qed.

Lemma value_nested_ind (P : value -> Prop) :
  P VNone -> (forall b, P (VBool b)) -> (forall z, P (VInt z)) ->
  (forall s, P (VStr s)) ->
  (forall l, Forall P l -> P (VList l)) ->
  (forall l, Forall P l -> P (VTuple l)) ->
  (forall d, Forall (fun kv => P (snd kv)) d -> P (VDict d)) ->
  forall v, P v.
Proof.
  intros HN HB HI HS HL HT HD.
  fix IH 1. intros [| b | z | s | l | l | d].
  - exact HN.
  - apply HB.
  - apply HI.
  - apply HS.
  - apply HL. induction l as [|x l IHl]; constructor; [apply IH | exact IHl].
  - apply HT. induction l as [|x l IHl]; constructor; [apply IH | exact IHl].
  - apply HD. induction d as [|[k x] d IHd]; constructor;
      [apply IH | exact IHd].
Qed.

Lemma json_dumps_printable (v : value) :
  all_chars printable_ascii (json_dumps v) = true.
Proof.
  induction v as [| b | z | s | l IH | l IH | d IH] using value_nested_ind;
    cbn [json_dumps].
  - reflexivity.
  - destruct b; reflexivity.
  - apply of_int_printable.
  - apply json_printable.
  - rewrite !all_chars_append, concat_printable; [reflexivity|].
    apply Forall_map. exact IH.
  - rewrite !all_chars_append, concat_printable; [reflexivity|].
    apply Forall_map. exact IH.
  - rewrite !all_chars_append, concat_printable; [reflexivity|].
    apply Forall_map. eapply Forall_impl; [exact IH|].
    intros [k x] Hx. cbn [fst snd] in *.
    rewrite !all_chars_append, json_printable, Hx. reflexivity.
Qed.

(** X14.  Whatever the alert holds, the payload the builder returns is
    made of printable ASCII characters only, from the space to the tilde:
    [json.dumps] escapes every control character and every character
    beyond ASCII. *)
Theorem payload_is_printable_ascii (alert options : value) (s : string) :
  generate_msg alert options = Ok s ->
  all_chars printable_ascii s = true.
Proof.
  intros Hs. built Hs msg Hbuilt. apply json_dumps_printable.
Qed.

Lemma payload_is_printable_ascii_witness :
  exists s,
    generate_msg alert_latin VNone = Ok s /\
    PyStr.contains "\\\n\u00e9" s = true /\
    PyStr.contains "\u00e9t\\233" s = true /\
    PyStr.contains "C:\\Logs" s = true /\
    all_chars printable_ascii s = true.
Proof.
  eexists. split; [reflexivity|]. split; [vm_compute; reflexivity|].
  split; [vm_compute; reflexivity|]. split; [vm_compute; reflexivity|].
  apply (payload_is_printable_ascii alert_latin VNone). reflexivity.
Defined.

(** ** The script run as a program *)

(** X15.  Run as a program, the script never gets to [main]: the
    statements at module level end by an exception, whatever the
    arguments and the files, so the process exits with status 1 having
    posted nothing and logged nothing; when the module-level reads of the
    arguments and of the alert all succeed, the exception is the
    [NameError] of [color], which no statement at module level binds. *)
Theorem script_stops_before_main (argv : list string) (w : world) :
  (exists e, script argv w = (Raise e, w)) /\
  exit_status (fst (script argv w)) = 1 /\
  posts (snd (script argv w)) = posts w /\
  log (snd (script argv w)) = log w /\
  (forall (alert_file : string) (alert_json rule : value),
     (3 < length argv)%nat ->
     argv !! 1%nat = Some alert_file ->
     open_file w alert_file = Some (Holds alert_json) ->
     getitem alert_json "rule" = Ok rule ->
     (exists level, getitem rule "level" = Ok level) ->
     (exists id, getitem rule "id" = Ok id) ->
     (py_in "agentless" alert_json = Ok true \/
      exists agent name,
        getitem alert_json "agent" = Ok agent /\
        getitem agent "name" = Ok name) ->
     fst (script argv w) = Raise (NameError "color")).
Proof.
  destruct (module_level_raises argv w) as (e & H).
  assert (script argv w = (Raise e, w)) as Hs.
  { unfold script, bind. rewrite H. reflexivity. }
  split; [eauto|]. rewrite Hs. cbn [fst snd exit_status].
  split; [reflexivity|]. split; [reflexivity|]. split; [reflexivity|].
  intros alert_file alert_json rule Hlen H1 Hopen Hrule (level & Hlevel)
         (id & Hid) Hagent.
  assert (fst (module_level argv w) = Raise (NameError "color")) as Hm.
  { destruct (argv !! 2%nat) as [a2|] eqn:H2;
      [|apply lookup_ge_None in H2; lia].
    destruct (argv !! 3%nat) as [a3|] eqn:H3;
      [|apply lookup_ge_None in H3; lia].
    unfold module_level, bind, arg, lift, ret, raise.
    rewrite H1, H2, H3, Hopen, Hrule, Hlevel.
    apply getitem_Ok in Hrule as (d & -> & _). rewrite py_in_dict.
    destruct Hagent as [Hin | (agent & name & Ha & Hn)].
    - rewrite py_in_dict in Hin. injection Hin as ->. rewrite Hid.
      reflexivity.
    - destruct (dict_lookup "agentless" d); rewrite ?Ha, ?Hn, Hid;
        reflexivity. }
  rewrite H in Hm. exact Hm.
Qed.

Lemma script_stops_before_main_witness :
  fst (script ["custom-discord"; "/tmp/alert.json"; "user:secret"; HOOK]
         (initial_world files_both net_ok))
  = Raise (NameError "color") /\
  posts (snd (script ["custom-discord"; "/tmp/alert.json"; "user:secret";
                      HOOK] (initial_world files_both net_ok))) = [].
Proof.
  destruct (script_stops_before_main
              ["custom-discord"; "/tmp/alert.json"; "user:secret"; HOOK]
              (initial_world files_both net_ok)) as (_ & _ & P & _ & H).
  split; [|exact P].
  apply (H "/tmp/alert.json" alert_both
           (VDict [("id", VStr "100001"); ("level", VInt 3)])).
  - cbn. lia.
  - reflexivity.
  - reflexivity.
  - reflexivity.
  - eexists. reflexivity.
  - eexists. reflexivity.
  - left. reflexivity.
Defined.

(** ** When a run succeeds *)

(** X16.  [main] returns normally exactly when there are an alert path and
    a webhook among the arguments, the options file is missing or holds
    JSON, the alert file holds JSON on which the builder returns, and the
    server answers the POST of the message built; nothing else makes a
    run succeed, and nothing else is needed. *)
Theorem main_returns_iff (args : list string) (w : world) :
  fst (main args w) = Ret tt <->
  exists (alert_path url : string) (alert : value) (s shown : string),
    args !! 1%nat = Some alert_path /\
    args !! 3%nat = Some url /\
    (open_file w (find_options (drop 4 args)) = None \/
     exists v, open_file w (find_options (drop 4 args)) = Some (Holds v)) /\
    open_file w alert_path = Some (Holds alert) /\
    generate_msg alert VNone = Ok s /\
    net w url s = Response shown.
Proof.
  split.
  - intros Hret.
    destruct (4 <=? length args)%nat eqn:Hlen;
      [|rewrite (main_bad_arguments args w Hlen) in Hret; discriminate].
    apply Nat.leb_le in Hlen.
    destruct (args !! 1%nat) as [p|] eqn:H1;
      [|apply lookup_ge_None in H1; lia].
    destruct (args !! 3%nat) as [u|] eqn:H3;
      [|apply lookup_ge_None in H3; lia].
    pose proof (main_run args w p u H1 H3) as R.
    assert (forall o, ends (main args) w o -> o <> Ret tt -> False) as Hno.
    { intros o (w' & Hm & _) Ho. rewrite Hm in Hret. cbn [fst] in Hret.
      congruence. }
    exists p, u.
    destruct (open_file w (find_options (drop 4 args))) as [[v|y|y]|] eqn:Ho;
      try (exfalso; apply (Hno _ R); discriminate);
      (destruct (open_file w p) as [[alert|y|y]|] eqn:Ha;
       try (exfalso; apply (Hno _ R); discriminate)).
    all: destruct (generate_msg alert (loaded_options w args)) as [s|e] eqn:Hg;
      try (exfalso; apply (Hno _ R); discriminate).
    all: destruct R as (w' & Hm & _); rewrite Hm in Hret; cbn [fst] in Hret;
      destruct (net w u s) as [shown|why] eqn:Hn; cbn [delivery] in Hret;
      [|discriminate]; exists alert, s, shown.
    all: split; [reflexivity|]; split; [reflexivity|];
      split; [first [left; reflexivity | right; eauto]|];
      split; [reflexivity|]; split; [exact Hg | exact Hn].
  - intros (p & u & alert & s & shown & H1 & H3 & Ho & Ha & Hg & Hn).
    pose proof (main_run args w p u H1 H3) as R. rewrite Ha in R.
    assert (generate_msg alert (loaded_options w args) = Ok s) as Hg'
      by exact Hg.
    assert (exists w', main args w = (delivery (net w u s), w'))
      as (w' & Hm).
    { destruct Ho as [Ho | (v & Ho)]; rewrite Ho, Hg' in R;
        destruct R as (w' & Hm & _); eauto. }
    rewrite Hm, Hn. reflexivity.
Qed.
